(** * Device Interaction Engine: command validation, feedback parsing,
      batch execution and Linux interface parsing

    A shallow embedding of
      - [src/ai_agent/validation/command_validator.py]
      - [src/ai_agent/feedback/feedback_parser.py]
      - [src/ai_agent/connectors/device_connector.py]
      - [src/ai_agent/execution/executor.py]
      - [src/ai_agent/context/context_builder.py]

    Python [str] values are modelled as [string]; the character classes and
    case mappings of Python are taken on the ASCII range, where the three
    command dialects live (characters above 127 have no case and belong to
    no class).  Python dictionaries keyed by strings are [gmap string _].
    [print] calls are dropped: the log is not part of any result. *)

From Stdlib Require Import Ascii String NArith Bool Lia.
From stdpp Require Import base option list strings gmap fin_maps.

Local Open Scope char_scope.

(** ** Python string primitives *)
Module Str.

Definition code (c : ascii) : N := N_of_ascii c.

Definition between (lo hi : N) (c : ascii) : bool :=
  ((lo <=? code c) && (code c <=? hi))%N.

(** [str.isspace] on one character: TAB, LF, VT, FF, CR, FS, GS, RS, US
    and the blank. *)
Definition isspace (c : ascii) : bool := between 9 13 c || between 28 32 c.

Definition isupper (c : ascii) : bool := between 65 90 c.
Definition islower (c : ascii) : bool := between 97 122 c.
Definition isdigit (c : ascii) : bool := between 48 57 c.

(** The class [\w] of the [re] module. *)
Definition isword (c : ascii) : bool :=
  isupper c || islower c || isdigit c || bool_decide (c = "_").

Definition lower_char (c : ascii) : ascii :=
  if isupper c then ascii_of_N (code c + 32) else c.

Definition upper_char (c : ascii) : ascii :=
  if islower c then ascii_of_N (code c - 32) else c.

Fixpoint map (f : ascii -> ascii) (s : string) : string :=
  match s with
  | EmptyString => EmptyString
  | String c s' => String (f c) (map f s')
  end.

(** [s.lower()] and [s.upper()] *)
Definition lower : string -> string := map lower_char.
Definition upper : string -> string := map upper_char.

(** [s.startswith(p)] *)
Definition startswith (p s : string) : bool := String.prefix p s.

(** [sub in s] *)
Fixpoint contains (sub s : string) : bool :=
  startswith sub s ||
  match s with
  | EmptyString => false
  | String _ s' => contains sub s'
  end.

Fixpoint lstrip (s : string) : string :=
  match s with
  | EmptyString => EmptyString
  | String c s' => if isspace c then lstrip s' else s
  end.

Fixpoint rstrip (s : string) : string :=
  match s with
  | EmptyString => EmptyString
  | String c s' =>
      match rstrip s' with
      | EmptyString => if isspace c then EmptyString else String c EmptyString
      | r => String c r
      end
  end.

(** [s.strip()] *)
Definition strip (s : string) : string := rstrip (lstrip s).

(** Every character of [s] is white space ([s] may be empty). *)
Fixpoint blank (s : string) : bool :=
  match s with
  | EmptyString => true
  | String c s' => isspace c && blank s'
  end.

(** Truth value of a string: [if s:] *)
Definition truthy (s : string) : bool := negb (bool_decide (s = EmptyString)).

Definition snoc (s : string) (c : ascii) : string := s +:+ String c EmptyString.

(** Line boundaries of [str.splitlines]: LF, VT, FF, CR, FS, GS, RS;
    CR LF counts once. *)
Definition islinebreak (c : ascii) : bool := between 10 13 c || between 28 30 c.

Fixpoint splitlines_go (cur s : string) : list string :=
  match s with
  | EmptyString => if truthy cur then [cur] else []
  | String c s' =>
      if islinebreak c then
        cur :: match s' with
               | String "010" s'' =>
                   if bool_decide (c = "013") then splitlines_go EmptyString s''
                   else splitlines_go EmptyString s'
               | _ => splitlines_go EmptyString s'
               end
      else splitlines_go (snoc cur c) s'
  end.

(** [s.splitlines()] *)
Definition splitlines (s : string) : list string := splitlines_go EmptyString s.

(** [s.split(sep, maxsplit)] for a non-empty separator: [fuel] is the
    number of splits still allowed ([None]: no limit), [skip] the number of
    characters of a separator just found that remain to be passed over. *)
Fixpoint split_go (sep : string) (fuel : option nat) (skip : nat)
         (cur s : string) : list string :=
  match s with
  | EmptyString => [cur]
  | String c s' =>
      match skip with
      | S k => split_go sep fuel k cur s'
      | O =>
          if bool_decide (fuel ≠ Some 0) && startswith sep s then
            cur :: split_go sep (Nat.pred <$> fuel) (String.length sep - 1)
                            EmptyString s'
          else split_go sep fuel 0 (snoc cur c) s'
      end
  end.

Definition split (sep s : string) : list string :=
  split_go sep None 0 EmptyString s.

Definition splitn (sep : string) (maxsplit : nat) (s : string) : list string :=
  split_go sep (Some maxsplit) 0 EmptyString s.

(** [s.split()]: split on runs of white space, no empty pieces. *)
Fixpoint split_ws_go (cur s : string) : list string :=
  match s with
  | EmptyString => if truthy cur then [cur] else []
  | String c s' =>
      if isspace c then
        (if truthy cur then [cur] else []) ++ split_ws_go EmptyString s'
      else split_ws_go (snoc cur c) s'
  end.

Definition split_ws (s : string) : list string := split_ws_go EmptyString s.

(** The line feed "\n" *)
Definition nl : string := String "010" EmptyString.

(** [s.replace(old, new)] for a non-empty [old]: the pieces between the
    occurrences of [old], put together again with [new]. *)
Definition replace (old new s : string) : string :=
  String.concat new (split old s).

End Str.

(** ** The fragment of Python's [re] used by the pattern tables *)
Module Re.

(** A pattern is a sequence of atoms: a literal character, the word
    boundary [\b], one white-space character [\s], or a run [\s+]. *)
Inductive atom : Type :=
| Lit (c : ascii)
| Boundary
| Space
| Spaces.

(** Reading a pattern text.  The tables use no other syntax (see
    [patterns_plain] below). *)
Fixpoint compile (p : string) : list atom :=
  match p with
  | EmptyString => []
  | String "\" (String "b" p') => Boundary :: compile p'
  | String "\" (String "s" (String "+" p')) => Spaces :: compile p'
  | String "\" (String "s" p') => Space :: compile p'
  | String c p' => Lit c :: compile p'
  end.

(** Under [re.IGNORECASE] a literal matches both cases of a letter. *)
Definition lit_matches (c a : ascii) : bool :=
  bool_decide (Str.lower_char c = Str.lower_char a).

Definition isword_opt (o : option ascii) : bool :=
  match o with Some c => Str.isword c | None => false end.

Definition next_char (s : string) : option ascii :=
  match s with String c _ => Some c | EmptyString => None end.

(** [\b]: exactly one of the neighbours is a word character; the ends of
    the text count as non-word. *)
Definition at_boundary (prev : option ascii) (s : string) : bool :=
  xorb (isword_opt prev) (isword_opt (next_char s)).

(** [match_here p prev s]: [p] matches a prefix of [s], the character
    before [s] in the whole text being [prev]. *)
Fixpoint match_here (p : list atom) : option ascii -> string -> bool :=
  match p with
  | [] => fun _ _ => true
  | Lit c :: p' => fun _ s =>
      match s with
      | String a s' => lit_matches c a && match_here p' (Some a) s'
      | EmptyString => false
      end
  | Boundary :: p' => fun prev s => at_boundary prev s && match_here p' prev s
  | Space :: p' => fun _ s =>
      match s with
      | String a s' => Str.isspace a && match_here p' (Some a) s'
      | EmptyString => false
      end
  | Spaces :: p' => fun _ s =>
      (fix run (s : string) : bool :=
         match s with
         | String a s' => Str.isspace a && (run s' || match_here p' (Some a) s')
         | EmptyString => false
         end) s
  end.

Fixpoint search_from (p : list atom) (prev : option ascii) (s : string) : bool :=
  match_here p prev s ||
  match s with
  | String a s' => search_from p (Some a) s'
  | EmptyString => false
  end.

(** [re.search(pattern, text, re.IGNORECASE)] is not [None]. *)
Definition search (pattern text : string) : bool :=
  search_from (compile pattern) None text.

(** Characters with a meaning in [re] other than [\b], [\s] and [+]. *)
Definition meta (c : ascii) : bool :=
  bool_decide (c ∈ ["."; "^"; "$"; "*"; "?"; "{"; "}"; "["; "]"; "|"; "("; ")"]).

(** A pattern text that [compile] reads as Python does. *)
Fixpoint plain (p : string) : bool :=
  match p with
  | EmptyString => true
  | String "\" (String "b" p') => plain p'
  | String "\" (String "s" (String "+" p')) => plain p'
  | String "\" (String "s" p') => plain p'
  | String c p' =>
      negb (meta c) && negb (bool_decide (c = "\")) &&
      negb (bool_decide (c = "+")) && plain p'
  end.

End Re.

Local Open Scope string_scope.

(** ** [command_validator.py]: class [CommandValidator] *)
Module CommandValidator.

(** [self.destructive_patterns] *)
Definition destructive_patterns : gmap string (list string) :=
  <[ "linux" :=
       [ "\brm\s+-rf";
         "\bmkfs";
         "\bfdisk";
         "\bdd\b";
         "reboot";
         "shutdown";
         "poweroff" ] ]>
  (<[ "cisco_ios" :=
       [ "erase\s+startup-config";
         "delete\s+flash:";
         "reload";
         "write\s+erase" ] ]>
  (<[ "paloalto_panos" :=
       [ "delete\s+rulebase";
         "request\s+system\s+private-data-reset" ] ]> ∅)).

(** [self.cisco_config_mode_commands] *)
Definition cisco_config_mode_commands : list string :=
  [ "interface"; "router ospf"; "ip route"; "access-list";
    "crypto map"; "snmp-server"; "logging host"; "ntp server";
    "hostname"; "banner motd"; "enable secret"; "line vty"; "ip address" ].

(** Step 1 of [is_safe]: some pattern of the dialect's list is found in the
    command; no list, no check. *)
Definition matches_destructive (command os_type : string) : bool :=
  match destructive_patterns !! os_type with
  | Some patterns => existsb (fun pattern => Re.search pattern command) patterns
  | None => false
  end.

(** [is_safe(self, command, os_type)] for a [str] command. *)
Definition is_safe (command os_type : string) : bool :=
  if matches_destructive command os_type then false
  else if negb (Str.truthy command)
          || (String.length (Str.strip command) =? 0)%nat then false
  else true.

(** [needs_config_mode(self, command, os_type)] *)
Definition needs_config_mode (command os_type : string) : bool :=
  if negb (bool_decide (os_type = "cisco_ios")) then false
  else
    let command_lower := Str.lower (Str.strip command) in
    if existsb (fun config_cmd_pattern =>
                  Str.startswith (Str.lower config_cmd_pattern) command_lower)
               cisco_config_mode_commands then true
    else if Str.startswith "set " command_lower then true
    else false.

End CommandValidator.

(** ** [feedback_parser.py]: class [FeedbackParser] *)
Module FeedbackParser.

(** The [result] dictionary; [error_line] is the key that is set only on
    some paths. *)
Record result : Type := Result {
  success : bool;
  message : string;
  data : option string;
  error_line : option string
}.

Definition generic_error_keywords : list string :=
  [ "error:"; "% invalid input"; "command rejected"; "unknown command";
    "failure"; "failed" ].

Definition apt_error_keywords : list string :=
  [ "unable to locate package"; "e:" ].

(** [cisco_error_patterns], in insertion order *)
Definition cisco_error_patterns : list (string * string) :=
  [ ("incomplete command", "Incomplete command.");
    ("ambiguous command", "Ambiguous command.") ].

Definition panos_cli_errors : list string :=
  [ "invalid syntax"; "unknown command" ].

Definition dquote : string := String "034"%char EmptyString.

Definition panos_api_error_pattern : string :=
  "<response status=" +:+ dquote +:+ "error" +:+ dquote.

(** The inner [for line in output.splitlines(): if key in line.lower()]
    loop: the first line holding the key, if any. *)
Definition first_line_with (key output : string) : option string :=
  List.find (fun line => Str.contains key (Str.lower line)) (Str.splitlines output).

Definition failure (msg : string) (key output : string) : result :=
  Result false msg None (first_line_with key output).

(** The tail of the function: [if result["success"]: ...; return result] *)
Definition finish (r : result) : result :=
  if success r then
    Result true
      "Command appears to have executed successfully (no obvious errors found)."
      (data r) (error_line r)
  else r.

Definition parse_linux (command output output_lower : string) (r : result) : result :=
  let r1 :=
    if Str.contains "useradd" command && Str.contains "already exists" output_lower
    then Result false "User likely already exists." (data r) (error_line r)
    else r in
  if Str.startswith "apt install" command || Str.startswith "apt-get install" command
  then
    match List.find (fun keyword => Str.contains keyword output_lower)
                    apt_error_keywords with
    | Some keyword =>
        failure "Apt install command failed. Package not found or other apt error."
                keyword output
    | None => finish r1
    end
  else finish r1.

(** The [if "% " in output] block of the source ends in [pass] on every
    path, so only the specific error strings decide. *)
Definition parse_cisco_ios (output output_lower : string) (r : result) : result :=
  match List.find (fun pm => Str.contains (fst pm) output_lower)
                  cisco_error_patterns with
  | Some (pattern, msg) => failure msg pattern output
  | None => finish r
  end.

Definition parse_paloalto_panos (output output_lower : string) (r : result) : result :=
  match List.find (fun err_pattern => Str.contains err_pattern output_lower)
                  panos_cli_errors with
  | Some err_pattern =>
      failure ("PAN-OS command error: '" +:+ err_pattern +:+ "' found.")
              err_pattern output
  | None =>
      if Str.contains panos_api_error_pattern output_lower then
        failure "PAN-OS API returned an error." panos_api_error_pattern output
      else finish r
  end.

(** [parse_output(self, command, output, os_type)]; [output] is [None] or
    a [str]. *)
Definition parse_output (command : string) (output : option string)
           (os_type : string) : result :=
  let r := Result true "Command output received." None None in
  match output with
  | None =>
      Result false
        "No output received from device (connection issue or command produced no STDOUT/STDERR)."
        None None
  | Some output =>
      let output_lower := Str.lower output in
      match List.find (fun err_key => Str.contains err_key output_lower)
                      generic_error_keywords with
      | Some err_key =>
          failure ("Potential error detected: '" +:+ err_key +:+ "' found in output.")
                  err_key output
      | None =>
          if bool_decide (os_type = "linux") then
            parse_linux command output output_lower r
          else if bool_decide (os_type = "cisco_ios") then
            parse_cisco_ios output output_lower r
          else if bool_decide (os_type = "paloalto_panos") then
            parse_paloalto_panos output output_lower r
          else finish r
      end
  end.

End FeedbackParser.

(** ** [device_connector.py]: class [DeviceConnector] *)
Module DeviceConnector.

(** The remote end of an open SSH client: the text that comes back for a
    command (standard error if not empty, else standard output, or the
    text of the exception), given the commands it received before. *)
Definition remote : Type := list string -> string -> string.

(** [client] is [None] until [connect] succeeds.  [sent] records, in
    order, the commands handed to [client.exec_command]. *)
Record t : Type := Make {
  hostname : string;
  client : option remote;
  sent : list string
}.

(** [execute_command(self, command)] *)
Definition execute_command (self : t) (command : string) : option string * t :=
  match client self with
  | None => (None, self)
  | Some device =>
      (Some (device (sent self) command),
       Make (hostname self) (client self) (sent self ++ [command]))
  end.

End DeviceConnector.

(** ** [executor.py]: class [Executor] *)
Module Executor.

(** What the executor asks of its [command_validator]. *)
Record validator : Type := Validator {
  is_safe : string -> string -> bool;
  needs_config_mode : string -> string -> bool
}.

(** The validator of the application: a [CommandValidator]. *)
Definition app_validator : validator :=
  Validator CommandValidator.is_safe CommandValidator.needs_config_mode.

Inductive exn : Type := TypeError.

Inductive outcome (A : Type) : Type :=
| Return (a : A)
| Raise (e : exn).
Arguments Return {A} a.
Arguments Raise {A} e.

(** Computations over the connector that may raise. *)
Definition M (A : Type) : Type :=
  DeviceConnector.t -> outcome A * DeviceConnector.t.

Definition ret {A} (a : A) : M A := fun dc => (Return a, dc).
Definition raise {A} (e : exn) : M A := fun dc => (Raise e, dc).
Definition bind {A B} (m : M A) (k : A -> M B) : M B :=
  fun dc =>
    match m dc with
    | (Return a, dc') => k a dc'
    | (Raise e, dc') => (Raise e, dc')
    end.

Notation "'do' x <- m ; k" := (bind m (fun x => k))
  (at level 10, x name, m at level 100, k at level 200).

(** [self.device_connector.execute_command(command)] *)
Definition call (command : string) : M (option string) :=
  fun dc =>
    let (output, dc') := DeviceConnector.execute_command dc command in
    (Return output, dc').

(** [sub in x] where [x] may be [None] *)
Definition str_in (sub : string) (x : option string) : M bool :=
  match x with
  | Some s => ret (Str.contains sub s)
  | None => raise TypeError
  end.

(** [f"{x}"] *)
Definition fmt (x : option string) : string :=
  match x with Some s => s | None => "None" end.

(** [[cmd.strip() for cmd in commands_str.splitlines() if cmd.strip()]] *)
Definition commands_to_execute (commands_str : string) : list string :=
  Str.strip <$> List.filter (fun cmd => Str.truthy (Str.strip cmd))
                            (Str.splitlines commands_str).

(** The validation loop: the first command that is not safe, if any. *)
Definition first_unsafe (v : validator) (os_type : string)
           (commands : list string) : option string :=
  List.find (fun cmd => negb (is_safe v cmd os_type)) commands.

(** The execution loop.  Its error check on each output only prints: the
    assignment to [error_occurred] is commented out in the source. *)
Fixpoint run_commands (commands : list string) (full_output : string) : M string :=
  match commands with
  | [] => ret full_output
  | cmd :: rest =>
      do output <- call cmd ;
      run_commands rest
        (full_output +:+ "$ " +:+ cmd +:+ Str.nl +:+ fmt output +:+ Str.nl)
  end.

(** From the execution loop to the end of the function. *)
Definition run_batch (commands : list string) (full_output : string)
           (error_occurred is_cisco_config_session : bool)
  : M (option string * string) :=
  do full_output <- run_commands commands full_output ;
  do full_output <-
    (if is_cisco_config_session then
       do end_output <- call "end" ;
       ret (full_output +:+ "end" +:+ Str.nl +:+ fmt end_output +:+ Str.nl)
     else ret full_output) ;
  if error_occurred then
    ret (Some full_output, "One or more commands may have failed.")
  else ret (Some full_output, "Commands executed successfully.").

(** The function once the connector is known to be connected. *)
Definition execute_connected (v : validator) (commands_str os_type : string)
           (ask_confirmation : bool) : M (option string * string) :=
  let commands := commands_to_execute commands_str in
  if bool_decide (commands = []) then ret (Some "", "No commands provided.")
  else
    match first_unsafe v os_type commands with
    | Some cmd => ret (None, "Command '" +:+ cmd +:+ "' is unsafe.")
    | None =>
        let confirmation := "yes" in
        if ask_confirmation && negb (bool_decide (confirmation = "yes")) then
          ret (None, "Execution cancelled by user.")
        else
          let full_output := "" in
          let error_occurred := false in
          if bool_decide (os_type = "cisco_ios")
             && existsb (fun cmd => needs_config_mode v cmd os_type) commands
          then
            do conf_t_output <- call "configure terminal" ;
            let full_output :=
              full_output +:+ "configure terminal" +:+ Str.nl
                          +:+ fmt conf_t_output +:+ Str.nl in
            do acknowledged <- str_in "Enter configuration commands" conf_t_output ;
            do invalid <- (if acknowledged then ret false
                           else str_in "% Invalid input" conf_t_output) ;
            if invalid then
              ret (Some full_output, "Failed to enter Cisco config mode.")
            else run_batch commands full_output error_occurred true
          else run_batch commands full_output error_occurred false
    end.

(** The executor object. *)
Record t : Type := Make {
  device_connector : option DeviceConnector.t;
  command_validator : validator
}.

(** [execute_commands_on_device(self, commands_str, os_type,
    ask_confirmation)]: the returned pair, or the exception raised, and the
    executor afterwards. *)
Definition execute_commands_on_device (self : t) (commands_str os_type : string)
           (ask_confirmation : bool) : outcome (option string * string) * t :=
  match device_connector self with
  | None => (Return (None, "Device not connected."), self)
  | Some dc =>
      match DeviceConnector.client dc with
      | None => (Return (None, "Device not connected."), self)
      | Some _ =>
          let (r, dc') :=
            execute_connected (command_validator self) commands_str os_type
                              ask_confirmation dc in
          (r, Make (Some dc') (command_validator self))
      end
  end.

(** The commands the connector of [self] has sent so far. *)
Definition sent_by (self : t) : list string :=
  match device_connector self with
  | Some dc => DeviceConnector.sent dc
  | None => []
  end.

End Executor.

(** ** [context_builder.py]: [ContextBuilder._parse_linux_interfaces] *)
Module ContextBuilder.

(** One value of the [interfaces] dictionary: a dictionary with the
    optional keys ['status'] and ['ip_address']. *)
Record iface : Type := Iface {
  status : option string;
  ip_address : option string
}.

(** [{}] *)
Definition no_fields : iface := Iface None None.

(** Truth value of such a dictionary: it has a key. *)
Definition has_fields (v : iface) : bool :=
  match status v, ip_address v with
  | None, None => false
  | _, _ => true
  end.

(** [details_part.split('state ')[1].split(' ')[0]]; an index out of range
    is [None]. *)
Definition state_token (details_part : string) : option string :=
  rest ← Str.split "state " details_part !! 1%nat ;
  Str.split " " rest !! 0%nat.

(** [details_part.split('<')[1].split('>')[0]] *)
Definition flags_of (details_part : string) : option string :=
  rest ← Str.split "<" details_part !! 1%nat ;
  Str.split ">" rest !! 0%nat.

(** The value stored under ['status'] for a header line, or [None] when
    the computation raises [IndexError]. *)
Definition link_status (details_part : string) : option string :=
  if Str.contains "state " details_part then
    status_part ← state_token details_part ;
    Some (Str.upper status_part)
  else if Str.contains "<" details_part && Str.contains ">" details_part then
    flags_str ← flags_of details_part ;
    if bool_decide ("UP" ∈ Str.split "," (Str.upper flags_str))
    then Some "UP" else Some "UNKNOWN"
  else Some "UNKNOWN".

(** [if 'ip_address' not in d: d['ip_address'] = ip] *)
Definition set_ip_once (ip : string) (v : iface) : iface :=
  match ip_address v with
  | None => Iface (status v) (Some ip)
  | Some _ => v
  end.

(** The loop state: [interfaces] and [current_interface_name]. *)
Definition loop_state : Type := gmap string iface * option string.

Definition is_header (line : string) : bool :=
  negb (Str.startswith " " line) && Str.contains ":" line.

(** The [try] block of a header line.  [except (IndexError, ValueError)]
    leaves the record just opened as it is and clears the current name. *)
Definition open_interface (interfaces : gmap string iface) (line : string)
  : loop_state :=
  let parts := Str.splitn ":" 2 line in
  match parts !! 1%nat with
  | None => (interfaces, None)
  | Some name_part =>
      let iface_name_from_line := Str.strip name_part in
      if bool_decide (iface_name_from_line = "lo") then (interfaces, None)
      else
        let current_interface_name := iface_name_from_line in
        let interfaces := <[current_interface_name := no_fields]> interfaces in
        match parts !! 2%nat ≫= link_status with
        | Some st =>
            (<[current_interface_name := Iface (Some st) None]> interfaces,
             Some current_interface_name)
        | None => (interfaces, None)
        end
  end.

(** The [elif] branch; [interfaces[current_interface_name]] is always
    there (lemma [current_is_key]). *)
Definition add_address (interfaces : gmap string iface) (name stripped_line : string)
  : gmap string iface :=
  let ip_parts := Str.split_ws stripped_line in
  match ip_parts !! 1%nat with
  | Some ip => alter (set_ip_once ip) name interfaces
  | None => interfaces
  end.

(** One iteration of [for line in output.splitlines()] *)
Definition step (st : loop_state) (line : string) : loop_state :=
  let '(interfaces, current_interface_name) := st in
  let stripped_line := Str.strip line in
  if is_header line then open_interface interfaces line
  else
    match current_interface_name with
    | Some name =>
        if Str.truthy name && Str.startswith "inet " stripped_line then
          (add_address interfaces name stripped_line, current_interface_name)
        else st
    | None => st
    end.

(** [v and v.get('status')] *)
Definition kept (v : iface) : bool :=
  has_fields v &&
  match status v with Some s => Str.truthy s | None => false end.

Definition scan (output : string) : loop_state :=
  fold_left step (Str.splitlines output) (∅, None).

(** The function on the text [execute_command("ip addr")] returned. *)
Definition parse_linux_interfaces_of (output : option string) : gmap string iface :=
  let interfaces :=
    match output with
    | Some text => if Str.truthy text then (scan text).1 else ∅
    | None => ∅
    end in
  filter (λ kv, kept kv.2 = true) interfaces.

(** [_parse_linux_interfaces(self)] *)
Definition _parse_linux_interfaces (dc : DeviceConnector.t)
  : gmap string iface * DeviceConnector.t :=
  let (output, dc') := DeviceConnector.execute_command dc "ip addr" in
  (parse_linux_interfaces_of output, dc').

(** [line] is a header line that opens interface [name] with the given
    details part. *)
Definition header_of (line name details_part : string) : Prop :=
  is_header line = true ∧
  Str.strip <$> (Str.splitn ":" 2 line !! 1%nat) = Some name ∧
  Str.splitn ":" 2 line !! 2%nat = Some details_part.

(** *** [ContextBuilder._parse_cisco_interfaces] *)
Module Cisco.

(** One value of the dictionary: ['ip_address'] (or [None]), ['status'] and
    ['protocol']. *)
Record iface : Type := Iface {
  ip_address : option string;
  status : string;
  protocol : string
}.

(** [len(parts) >= 6 and ("Interface" not in parts[0])] *)
Definition is_row (parts : list string) : bool :=
  (6 <=? length parts)%nat && negb (Str.contains "Interface" (nth 0 parts "")).

(** One iteration of [for line in lines]; the indexes are within range by
    the length test. *)
Definition add_row (interfaces : gmap string iface) (line : string)
  : gmap string iface :=
  let parts := Str.split_ws line in
  if is_row parts then
    let iface_name := nth 0 parts "" in
    let ip_address := nth 1 parts "" in
    let status := nth (length parts - 2) parts "" in
    let protocol_status := nth (length parts - 1) parts "" in
    <[iface_name :=
        Iface (if bool_decide (ip_address ≠ "unassigned") then Some ip_address
               else None)
              status protocol_status]> interfaces
  else interfaces.

(** The function on the text [execute_command("show ip interface brief")]
    returned. *)
Definition parse_cisco_interfaces_of (output : option string) : gmap string iface :=
  match output with
  | Some text =>
      if Str.truthy text then fold_left add_row (Str.splitlines text) ∅ else ∅
  | None => ∅
  end.

End Cisco.

(** [_parse_cisco_interfaces(self)] *)
Definition _parse_cisco_interfaces (dc : DeviceConnector.t)
  : gmap string Cisco.iface * DeviceConnector.t :=
  let (output, dc') := DeviceConnector.execute_command dc "show ip interface brief" in
  (Cisco.parse_cisco_interfaces_of output, dc').

(** *** [ContextBuilder.gather_context] and the three gatherers *)

(** The value under ['interfaces']: the Linux or the Cisco mapping. *)
Inductive interfaces_value : Type :=
| LinuxInterfaces (m : gmap string iface)
| CiscoInterfaces (m : gmap string Cisco.iface).

(** [self.context]: a dictionary with the optional keys ['os_type'],
    ['hostname'], ['os_version'] and ['interfaces']. *)
Record device_context : Type := Context {
  os_type : option string;
  hostname : option string;
  os_version : option string;
  interfaces : option interfaces_value
}.

(** The builder object. *)
Record t : Type := Builder {
  device_connector : option DeviceConnector.t;
  context : device_context
}.

(** Computations over the builder; [None] is a raised exception, which
    leaves the builder as it was when raised. *)
Definition M (A : Type) : Type := t -> option A * t.

Definition ret {A} (a : A) : M A := fun self => (Some a, self).
Definition raise {A} : M A := fun self => (None, self).
Definition bind {A B} (m : M A) (k : A -> M B) : M B :=
  fun self =>
    match m self with
    | (Some a, self') => k a self'
    | (None, self') => (None, self')
    end.

Notation "'do' x <- m ; k" := (bind m (fun x => k))
  (at level 10, x name, m at level 100, k at level 200).

(** [self.device_connector.execute_command(command)] *)
Definition call (command : string) : M (option string) :=
  fun self =>
    match device_connector self with
    | None => (None, self)
    | Some dc =>
        let (output, dc') := DeviceConnector.execute_command dc command in
        (Some output, Builder (Some dc') (context self))
    end.

(** A [str] method called on [x]: raises when [x] is [None]. *)
Definition text (x : option string) : M string :=
  match x with
  | Some s => ret s
  | None => raise
  end.

(** [l[-1]]: raises [IndexError] on the empty list. *)
Definition last_item (l : list string) : M string :=
  match last l with
  | Some s => ret s
  | None => raise
  end.

Definition set_os_type (v : string) : M unit :=
  fun self =>
    let c := context self in
    (Some tt, Builder (device_connector self)
                      (Context (Some v) (hostname c) (os_version c) (interfaces c))).

Definition set_hostname (v : string) : M unit :=
  fun self =>
    let c := context self in
    (Some tt, Builder (device_connector self)
                      (Context (os_type c) (Some v) (os_version c) (interfaces c))).

Definition set_os_version (v : string) : M unit :=
  fun self =>
    let c := context self in
    (Some tt, Builder (device_connector self)
                      (Context (os_type c) (hostname c) (Some v) (interfaces c))).

Definition set_interfaces (v : interfaces_value) : M unit :=
  fun self =>
    let c := context self in
    (Some tt, Builder (device_connector self)
                      (Context (os_type c) (hostname c) (os_version c) (Some v))).

(** A parser method run on the connector of the builder. *)
Definition with_connector {A} (f : DeviceConnector.t -> A * DeviceConnector.t)
  : M A :=
  fun self =>
    match device_connector self with
    | None => (None, self)
    | Some dc =>
        let (a, dc') := f dc in
        (Some a, Builder (Some dc') (context self))
    end.

Definition os_release_command : string :=
  "cat /etc/os-release | grep PRETTY_NAME | cut -d'=' -f2 | tr -d '"
    +:+ FeedbackParser.dquote +:+ "'".

(** [_gather_linux_context(self)] *)
Definition _gather_linux_context : M unit :=
  do _ <- set_os_type "linux" ;
  do output <- call "hostname" ;
  do output <- text output ;
  do _ <- set_hostname (Str.strip output) ;
  do output <- call os_release_command ;
  do output <- text output ;
  do _ <- set_os_version (Str.strip output) ;
  do parsed <- with_connector _parse_linux_interfaces ;
  set_interfaces (LinuxInterfaces parsed).

(** The [if version_output:] block of [_gather_cisco_ios_context] *)
Definition set_cisco_version (version_output : option string) : M unit :=
  match version_output with
  | Some version_output =>
      if Str.truthy version_output then
        let parts := Str.split "," version_output in
        if (2 <? length parts)%nat then
          set_os_version (Str.strip (Str.replace " Version " "" (nth 2 parts "")))
        else ret tt
      else ret tt
  | None => ret tt
  end.

(** [_gather_cisco_ios_context(self)] *)
Definition _gather_cisco_ios_context : M unit :=
  do _ <- set_os_type "cisco_ios" ;
  do _ <- call "terminal length 0" ;
  do output <- call "show running-config | include hostname" ;
  do output <- text output ;
  do name <- last_item (Str.split_ws output) ;
  do _ <- set_hostname name ;
  do version_output <- call "show version | include Cisco IOS Software" ;
  do _ <- set_cisco_version version_output ;
  do parsed <- with_connector _parse_cisco_interfaces ;
  do _ <- set_interfaces (CiscoInterfaces parsed) ;
  do _ <- call "terminal no length" ;
  ret tt.

(** [_gather_paloalto_panos_context(self)] *)
Definition _gather_paloalto_panos_context : M unit :=
  do _ <- set_os_type "paloalto_panos" ;
  do output <- call "show system info | match hostname" ;
  do output <- text output ;
  do value <- last_item (Str.split ":" output) ;
  do _ <- set_hostname (Str.strip value) ;
  do output <- call "show system info | match sw-version" ;
  do output <- text output ;
  do value <- last_item (Str.split ":" output) ;
  set_os_version (Str.strip value).

(** The [try] block once a gatherer is chosen: [return self.context], or
    [None] when an exception was caught. *)
Definition guarded (gather : M unit) (self : t) : option device_context * t :=
  match gather self with
  | (Some _, self') => (Some (context self'), self')
  | (None, self') => (None, self')
  end.

(** [gather_context(self, os_type)] *)
Definition gather_context (self : t) (os_type : string)
  : option device_context * t :=
  match device_connector self with
  | None => (None, self)
  | Some dc =>
      match DeviceConnector.client dc with
      | None => (None, self)
      | Some _ =>
          if bool_decide (Str.lower os_type = "linux") then
            guarded _gather_linux_context self
          else if bool_decide (Str.lower os_type = "cisco_ios") then
            guarded _gather_cisco_ios_context self
          else if bool_decide (Str.lower os_type = "paloalto_panos") then
            guarded _gather_paloalto_panos_context self
          else (None, self)
      end
  end.

End ContextBuilder.

(** * Invariants and fixtures *)

(** Closed facts about concrete runs are settled by evaluation. *)
Ltac by_evaluation :=
  repeat match goal with |- _ ∧ _ => split end; vm_compute; reflexivity.

(** The notice Cisco IOS prints after a configuration session. *)
Definition config_notice : string :=
  "%SYS-5-CONFIG_I: Configured from console by console".

Definition no_obvious_errors : FeedbackParser.result :=
  FeedbackParser.Result true
    "Command appears to have executed successfully (no obvious errors found)."
    None None.

(** A router that refuses everything. *)
Definition refusing_device : DeviceConnector.remote :=
  λ _ _, "% Invalid input detected at '^' marker.".

(** A device that answers nothing. *)
Definition silent_device : DeviceConnector.remote := λ _ _, "".

(** The device of [test_execute_commands_with_error_in_output]. *)
Definition faulty_device : DeviceConnector.remote :=
  λ _ _, "blah blah" +:+ Str.nl +:+ "% Invalid input detected" +:+ Str.nl +:+ "blah".

Definition executor_on (device : DeviceConnector.remote) : Executor.t :=
  Executor.Make (Some (DeviceConnector.Make "test-device" (Some device) []))
                Executor.app_validator.

(** A router that acknowledges ["configure terminal"] and refuses every
    other command. *)
Definition strict_router : DeviceConnector.remote :=
  λ _ command,
    if bool_decide (command = "configure terminal")
    then "Enter configuration commands, one per line.  End with CNTL/Z."
    else "% Invalid input detected at '^' marker.".

Definition three_commands : string :=
  "show version" +:+ Str.nl +:+ "interface Loopback0" +:+ Str.nl +:+ "show ip route".

(** What holds of [interfaces] all along the loop over the lines [L]: no
    key is ["lo"], and a status, when present, was computed from the details
    part of a header line of [L] that names the key. *)
Definition well_formed (L : list string)
           (interfaces : gmap string ContextBuilder.iface) : Prop :=
  ∀ name v, interfaces !! name = Some v →
    name ≠ "lo" ∧
    ∀ s, ContextBuilder.status v = Some s →
      ∃ line details_part,
        line ∈ L ∧ ContextBuilder.header_of line name details_part ∧
        ContextBuilder.link_status details_part = Some s.

(** The current name, when set, is a key of [interfaces]: the lookup in the
    [elif] branch cannot raise [KeyError]. *)
Definition current_known (st : ContextBuilder.loop_state) : Prop :=
  ∀ name, st.2 = Some name → is_Some (st.1 !! name).

(** The text of ["ip addr"] used by [test_gather_linux_context_commands],
    followed by a header line without details. *)
Definition ip_addr_text : string :=
  "1: lo: <LOOPBACK,UP,LOWER_UP> mtu 65536 qdisc noqueue state UNKNOWN group default qlen 1000" +:+ Str.nl +:+
  "    link/loopback 00:00:00:00:00:00 brd 00:00:00:00:00:00" +:+ Str.nl +:+
  "    inet 127.0.0.1/8 scope host lo" +:+ Str.nl +:+
  "       valid_lft forever preferred_lft forever" +:+ Str.nl +:+
  "2: eth0: <BROADCAST,MULTICAST,UP,LOWER_UP> mtu 1500 qdisc fq_codel state UP group default qlen 1000" +:+ Str.nl +:+
  "    link/ether 00:11:22:33:44:55 brd ff:ff:ff:ff:ff:ff" +:+ Str.nl +:+
  "    inet 192.168.1.100/24 brd 192.168.1.255 scope global dynamic eth0" +:+ Str.nl +:+
  "       valid_lft 86352sec preferred_lft 86352sec" +:+ Str.nl +:+
  "    inet6 fe80::211:22ff:fe33:4455/64 scope link " +:+ Str.nl +:+
  "       valid_lft forever preferred_lft forever" +:+ Str.nl +:+
  "3: docker0: <NO-CARRIER,BROADCAST,MULTICAST,UP> mtu 1500 qdisc noqueue state DOWN group default " +:+ Str.nl +:+
  "    link/ether 02:42:ac:11:00:02 brd ff:ff:ff:ff:ff:ff" +:+ Str.nl +:+
  "    inet 172.17.0.1/16 brd 172.17.255.255 scope global docker0" +:+ Str.nl +:+
  "       valid_lft forever preferred_lft forever" +:+ Str.nl +:+
  "4: broken".

Definition linux_host : DeviceConnector.t :=
  DeviceConnector.Make "test-linux-host" (Some (λ _ _, ip_addr_text)) [].

(** Every character of [s] satisfies [P]. *)
Fixpoint all_chars (P : ascii → bool) (s : string) : bool :=
  match s with
  | EmptyString => true
  | String c s' => P c && all_chars P s'
  end.

(** The transcript the execution loop builds for [commands], the device
    having received [sent] before: one ["$ cmd"] line and the answer per
    command, in order. *)
Fixpoint transcript (device : DeviceConnector.remote) (sent commands : list string)
  : string :=
  match commands with
  | [] => ""
  | cmd :: rest =>
      "$ " +:+ cmd +:+ Str.nl +:+ device sent cmd +:+ Str.nl
           +:+ transcript device (sent ++ [cmd]) rest
  end.

(** [line] is a data row of the Cisco table that yields the record [v]
    under [name]. *)
Definition cisco_row (line name : string) (v : ContextBuilder.Cisco.iface) : Prop :=
  ∃ parts ip,
    parts = Str.split_ws line ∧ (6 ≤ length parts)%nat ∧
    parts !! 0%nat = Some name ∧ Str.contains "Interface" name = false ∧
    parts !! 1%nat = Some ip ∧
    ContextBuilder.Cisco.ip_address v
    = (if bool_decide (ip ≠ "unassigned") then Some ip else None) ∧
    parts !! (length parts - 2)%nat = Some (ContextBuilder.Cisco.status v) ∧
    parts !! (length parts - 1)%nat = Some (ContextBuilder.Cisco.protocol v).

(** [line] is an address line that supplies [ip]. *)
Definition inet_line (line ip : string) : Prop :=
  ContextBuilder.is_header line = false ∧
  Str.startswith "inet " (Str.strip line) = true ∧
  Str.split_ws (Str.strip line) !! 1%nat = Some ip.

(** The addresses of the Linux mapping. *)
Definition addresses_sound (L : list string) (interfaces : gmap string ContextBuilder.iface) : Prop :=
  ∀ name v ip, interfaces !! name = Some v → ContextBuilder.ip_address v = Some ip →
               ∃ line, line ∈ L ∧ inet_line line ip.

(** The commands each gatherer sends, in order. *)
Definition linux_script : list string :=
  ["hostname"; ContextBuilder.os_release_command; "ip addr"].

Definition cisco_script : list string :=
  ["terminal length 0"; "show running-config | include hostname";
   "show version | include Cisco IOS Software"; "show ip interface brief";
   "terminal no length"].

Definition panos_script : list string :=
  ["show system info | match hostname"; "show system info | match sw-version"].

(** The value under ['os_version'] after the [if version_output:] block of
    the Cisco gatherer, [old] being the value before. *)
Definition version_after (old : option string) (version_output : string)
  : option string :=
  if Str.truthy version_output && (2 <? length (Str.split "," version_output))%nat
  then Some (Str.strip (Str.replace " Version " ""
                          (nth 2 (Str.split "," version_output) "")))
  else old.

(** A device whose answer to a command does not depend on what it received
    before. *)
Definition stateless (device : DeviceConnector.remote) : Prop :=
  ∀ sent1 sent2 command, device sent1 command = device sent2 command.

(** The commands the connector of a builder has sent so far. *)
Definition builder_sent (self : ContextBuilder.t) : list string :=
  match ContextBuilder.device_connector self with
  | Some dc => DeviceConnector.sent dc
  | None => []
  end.

(** The answer to the host name command of the Cisco gatherer, the device
    having received [sent] before the gatherer starts. *)
Definition cisco_hostname_answer (device : DeviceConnector.remote)
           (sent : list string) : string :=
  device (sent ++ ["terminal length 0"])%list
         "show running-config | include hostname".

(** * Properties *)

(** ** Strings *)
Section StrFacts.

Lemma lstrip_blank (s : string) : Str.blank s = true → Str.lstrip s = "".
Proof.
  induction s as [|c s IH]; simpl; [done|].
  intros [Hc Hs]%andb_true_iff. rewrite Hc. auto.
Qed.

Lemma strip_blank (s : string) : Str.blank s = true → Str.strip s = "".
Proof. intros H. unfold Str.strip. by rewrite lstrip_blank. Qed.

Lemma lstrip_not_blank (s : string) :
  Str.blank s = false →
  ∃ c s', Str.lstrip s = String c s' ∧ Str.isspace c = false.
Proof.
  induction s as [|c s IH]; simpl; [done|].
  destruct (Str.isspace c) eqn:Hc; simpl; eauto.
Qed.

Lemma rstrip_keeps_head (c : ascii) (s : string) :
  Str.isspace c = false → Str.rstrip (String c s) ≠ "".
Proof. intros Hc. simpl. rewrite Hc. by destruct (Str.rstrip s). Qed.

Lemma strip_not_blank (s : string) : Str.blank s = false → Str.strip s ≠ "".
Proof.
  intros (c & s' & Hl & Hc)%lstrip_not_blank.
  unfold Str.strip. rewrite Hl. by apply rstrip_keeps_head.
Qed.

Lemma length_zero (s : string) : (String.length s =? 0)%nat = bool_decide (s = "").
Proof. by destruct s. Qed.

Lemma truthy_true (s : string) : Str.truthy s = true ↔ s ≠ "".
Proof.
  unfold Str.truthy. rewrite negb_true_iff, bool_decide_eq_false. done.
Qed.

Lemma find_all_false {A} (f : A → bool) (l : list A) :
  (∀ x, x ∈ l → f x = false) → List.find f l = None.
Proof.
  induction l as [|a l IH]; simpl; [done|]. intros H.
  rewrite (H a) by constructor. apply IH. intros x Hx. apply H. by constructor.
Qed.

Lemma find_some_true {A} (f : A → bool) (l : list A) (x : A) :
  x ∈ l → f x = true → ∃ y, List.find f l = Some y ∧ y ∈ l ∧ f y = true.
Proof.
  intros Hx Hf. destruct (List.find f l) as [y|] eqn:E.
  - apply List.find_some in E as [Hy Hfy]. exists y.
    by rewrite list_elem_of_In.
  - apply list_elem_of_In in Hx. pose proof (List.find_none f l E x Hx).
    congruence.
Qed.

End StrFacts.

(** ** The command validator *)
Section CommandValidatorFacts.

Import CommandValidator.

(** The pattern texts of the table stay within the syntax [Re.compile]
    reads. *)
Lemma patterns_plain :
  map_Forall (λ _ patterns, forallb Re.plain patterns = true) destructive_patterns.
Proof.
  unfold destructive_patterns.
  repeat (apply map_Forall_insert_2; [reflexivity|]).
  apply map_Forall_empty.
Qed.

Lemma lookup_other_dialect (os_type : string) :
  os_type ≠ "linux" → os_type ≠ "cisco_ios" → os_type ≠ "paloalto_panos" →
  destructive_patterns !! os_type = None.
Proof.
  intros H1 H2 H3. unfold destructive_patterns.
  by rewrite !lookup_insert_ne, lookup_empty.
Qed.

(** What [is_safe] computes: no destructive pattern found, and some
    character that is not white space. *)
Lemma is_safe_eq (command os_type : string) :
  is_safe command os_type =
  negb (matches_destructive command os_type) && negb (Str.blank command).
Proof.
  unfold is_safe. destruct (matches_destructive command os_type); [done|].
  simpl. destruct (Str.blank command) eqn:Hb.
  - rewrite (strip_blank _ Hb). simpl. by rewrite orb_true_r.
  - apply strip_not_blank in Hb as Hs.
    rewrite length_zero, (bool_decide_eq_false_2 _ Hs), orb_false_r.
    assert (command ≠ "") as Hne by (intros ->; done).
    apply truthy_true in Hne. by rewrite Hne.
Qed.

(** C5.  For every [os_type], a command line that is empty or consists of
    white space only is classified unsafe: [is_safe] returns [False]. *)
Theorem blank_command_is_unsafe (command os_type : string) :
  Str.blank command = true → is_safe command os_type = false.
Proof. intros Hb. rewrite is_safe_eq, Hb. apply andb_false_r. Qed.

Lemma blank_command_is_unsafe_witness :
  Str.blank "  " = true ∧ is_safe "  " "paloalto_panos" = false.
Proof.
  split; [reflexivity|].
  apply (blank_command_is_unsafe "  " "paloalto_panos"). reflexivity.
Defined.

(** C6, as stated, fails: a command line of one blank is not empty and
    matches no pattern of the Linux list, yet [is_safe] returns [False]. *)
Lemma nonempty_unmatched_unsafe :
  " " ≠ "" ∧
  destructive_patterns !! "linux" =
    Some ["\brm\s+-rf"; "\bmkfs"; "\bfdisk"; "\bdd\b"; "reboot"; "shutdown"; "poweroff"] ∧
  existsb (λ pattern, Re.search pattern " ")
    ["\brm\s+-rf"; "\bmkfs"; "\bfdisk"; "\bdd\b"; "reboot"; "shutdown"; "poweroff"]
    = false ∧
  is_safe " " "linux" = false.
Proof.
  split; [discriminate|].
  split; [vm_compute; reflexivity|].
  split; vm_compute; reflexivity.
Qed.

(** C6, amended.  For a dialect of the table: a command line in which some
    pattern of the dialect's list is found, letter case ignored, is unsafe;
    a command line that is not empty or white space only and in which no
    pattern of the list is found is safe.  In particular cisco_ios
    ["reload"] is unsafe, cisco_ios ["show ip interface brief"] is safe and
    linux ["RM -rf /tmp/x"] is unsafe. *)
Theorem is_safe_by_patterns (os_type : string) (patterns : list string)
        (command : string) :
  destructive_patterns !! os_type = Some patterns →
  ((∃ pattern, pattern ∈ patterns ∧ Re.search pattern command = true) →
     is_safe command os_type = false) ∧
  (Str.blank command = false →
     (∀ pattern, pattern ∈ patterns → Re.search pattern command = false) →
     is_safe command os_type = true) ∧
  is_safe "reload" "cisco_ios" = false ∧
  is_safe "show ip interface brief" "cisco_ios" = true ∧
  is_safe "RM -rf /tmp/x" "linux" = false.
Proof.
  intros Hos.
  assert (matches_destructive command os_type
          = existsb (λ pattern, Re.search pattern command) patterns) as Hm
    by (unfold matches_destructive; by rewrite Hos).
  split; [|split; [|by vm_compute]].
  - intros (pattern & Hin & Hp). rewrite is_safe_eq, Hm.
    replace (existsb _ patterns) with true; [done|].
    symmetry. apply existsb_exists. exists pattern.
    by rewrite <- list_elem_of_In.
  - intros Hb Hnone. rewrite is_safe_eq, Hm, Hb.
    replace (existsb _ patterns) with false; [done|].
    symmetry. apply not_true_is_false. intros (p & Hin & Hp)%existsb_exists.
    apply list_elem_of_In in Hin. specialize (Hnone p Hin). congruence.
Qed.

Lemma is_safe_by_patterns_witness :
  destructive_patterns !! "cisco_ios" =
    Some ["erase\s+startup-config"; "delete\s+flash:"; "reload"; "write\s+erase"] ∧
  is_safe "Write  Erase" "cisco_ios" = false ∧
  is_safe "show version" "cisco_ios" = true.
Proof.
  pose proof (is_safe_by_patterns "cisco_ios"
    ["erase\s+startup-config"; "delete\s+flash:"; "reload"; "write\s+erase"]
    "Write  Erase" eq_refl) as (Hbad & _).
  pose proof (is_safe_by_patterns "cisco_ios"
    ["erase\s+startup-config"; "delete\s+flash:"; "reload"; "write\s+erase"]
    "show version" eq_refl) as (_ & Hgood & _).
  split; [reflexivity|]. split.
  - apply Hbad. exists "write\s+erase". split; [|reflexivity].
    apply list_elem_of_In. simpl. tauto.
  - apply Hgood; [reflexivity|].
    intros pattern Hin. apply list_elem_of_In in Hin. simpl in Hin.
    destruct Hin as [<-|[<-|[<-|[<-|[]]]]]; reflexivity.
Defined.

(** C7.  For an [os_type] that is not a key of the pattern table (any text
    other than ["linux"], ["cisco_ios"], ["paloalto_panos"]; ["Linux"] is
    such a text) no pattern is tried, and every command line that is not
    empty or white space only is safe, ["rm -rf /"] included. *)
Theorem unknown_dialect_is_unchecked (os_type command : string) :
  os_type ≠ "linux" → os_type ≠ "cisco_ios" → os_type ≠ "paloalto_panos" →
  Str.blank command = false →
  destructive_patterns !! os_type = None ∧
  matches_destructive command os_type = false ∧
  is_safe command os_type = true ∧
  is_safe "rm -rf /" os_type = true.
Proof.
  intros H1 H2 H3 Hb.
  pose proof (lookup_other_dialect os_type H1 H2 H3) as Hnone.
  assert (∀ c, matches_destructive c os_type = false) as Hm
    by (intros c; unfold matches_destructive; by rewrite Hnone).
  split; [exact Hnone|]. split; [apply Hm|].
  split; rewrite is_safe_eq, Hm; [by rewrite Hb|done].
Qed.

Lemma unknown_dialect_is_unchecked_witness :
  Str.blank "rm -rf /" = false ∧
  destructive_patterns !! "Linux" = None ∧
  is_safe "rm -rf /" "Linux" = true ∧
  is_safe "rm -rf /" "linux" = false.
Proof.
  split; [reflexivity|].
  destruct (unknown_dialect_is_unchecked "Linux" "rm -rf /")
    as (Hk & _ & Hs & _); [discriminate..|reflexivity|].
  split; [exact Hk|]. split; [exact Hs|reflexivity].
Defined.

End CommandValidatorFacts.

(** ** The feedback parser *)
Section FeedbackParserFacts.

Import FeedbackParser.

(** C8.  For every command and every [os_type], an absent response
    ([None]) is classified as a failure with the no-output message; no
    keyword is looked at. *)
Theorem no_output_is_failure (command os_type : string) :
  parse_output command None os_type =
  Result false
    "No output received from device (connection issue or command produced no STDOUT/STDERR)."
    None None.
Proof. reflexivity. Qed.

(** The notice itself holds no generic error keyword and no Cisco error
    string, so no scan flags it. *)
Lemma config_notice_not_flagged :
  (∀ err_key, err_key ∈ generic_error_keywords →
     Str.contains err_key (Str.lower config_notice) = false) ∧
  (∀ pm, pm ∈ cisco_error_patterns →
     Str.contains (fst pm) (Str.lower config_notice) = false).
Proof.
  split; intros x Hx; apply list_elem_of_In in Hx; simpl in Hx;
    repeat (destruct Hx as [<-|Hx]; [by vm_compute|]); destruct Hx.
Qed.

(** C9.  On cisco_ios, a response that contains the notice
    ["%SYS-5-CONFIG_I: Configured from console by console"] and holds no
    generic error keyword and no Cisco error string is classified as a
    success: the notice is not flagged by the generic keyword scan. *)
Theorem config_notice_is_success (command output : string) :
  Str.contains config_notice output = true →
  (∀ err_key, err_key ∈ generic_error_keywords →
     Str.contains err_key (Str.lower output) = false) →
  (∀ pm, pm ∈ cisco_error_patterns →
     Str.contains (fst pm) (Str.lower output) = false) →
  parse_output command (Some output) "cisco_ios" = no_obvious_errors.
Proof.
  intros _ Hgeneric Hcisco. unfold parse_output.
  rewrite (find_all_false _ _ Hgeneric). simpl.
  unfold parse_cisco_ios. by rewrite (find_all_false _ _ Hcisco).
Qed.

Lemma config_notice_is_success_witness :
  Str.contains config_notice
    ("NewRouter(config)#exit" +:+ Str.nl +:+ config_notice) = true ∧
  parse_output "hostname NewRouter"
    (Some ("NewRouter(config)#exit" +:+ Str.nl +:+ config_notice)) "cisco_ios"
  = no_obvious_errors.
Proof.
  split; [reflexivity|].
  apply (config_notice_is_success "hostname NewRouter"
           ("NewRouter(config)#exit" +:+ Str.nl +:+ config_notice)).
  - reflexivity.
  - intros x Hx. apply list_elem_of_In in Hx. simpl in Hx.
    repeat (destruct Hx as [<-|Hx]; [vm_compute; reflexivity|]). destruct Hx.
  - intros x Hx. apply list_elem_of_In in Hx. simpl in Hx.
    repeat (destruct Hx as [<-|Hx]; [vm_compute; reflexivity|]). destruct Hx.
Defined.

End FeedbackParserFacts.

(** ** The executor *)
Section ExecutorFacts.

Import Executor.

Abbreviation connector := DeviceConnector.Make.

Lemma call_connected (dc : DeviceConnector.t) (device : DeviceConnector.remote)
      (cmd : string) :
  DeviceConnector.client dc = Some device →
  call cmd dc =
  (Return (Some (device (DeviceConnector.sent dc) cmd)),
   connector (DeviceConnector.hostname dc) (Some device)
             (DeviceConnector.sent dc ++ [cmd])).
Proof.
  intros Hc. unfold call, DeviceConnector.execute_command. by rewrite Hc.
Qed.

(** The execution loop sends the commands in order and never stops early. *)
Lemma run_commands_connected (commands : list string) :
  ∀ (full_output : string) (dc : DeviceConnector.t) (device : DeviceConnector.remote),
    DeviceConnector.client dc = Some device →
    ∃ out,
      run_commands commands full_output dc =
      (Return out,
       connector (DeviceConnector.hostname dc) (Some device)
                 (DeviceConnector.sent dc ++ commands)).
Proof.
  induction commands as [|cmd rest IH]; intros full_output dc device Hc.
  - exists full_output. destruct dc as [h c s]. simpl in *. subst c.
    by rewrite app_nil_r.
  - simpl. unfold bind. rewrite (call_connected dc device cmd Hc).
    match goal with
    | |- context [run_commands rest ?fo ?d] =>
        destruct (IH fo d device eq_refl) as [out Hout]
    end.
    exists out. rewrite Hout. simpl. by rewrite <- app_assoc.
Qed.

(** From the loop to the return: with [error_occurred] left at [False] the
    status is the success text whatever the device answered. *)
Lemma run_batch_connected (commands : list string) (full_output : string)
      (in_config : bool) (dc : DeviceConnector.t) (device : DeviceConnector.remote) :
  DeviceConnector.client dc = Some device →
  ∃ out,
    run_batch commands full_output false in_config dc =
    (Return (Some out, "Commands executed successfully."),
     connector (DeviceConnector.hostname dc) (Some device)
               (DeviceConnector.sent dc ++ commands
                  ++ (if in_config then ["end"] else []))).
Proof.
  intros Hc. unfold run_batch, bind at 1.
  destruct (run_commands_connected commands full_output dc device Hc) as [out Hout].
  rewrite Hout. destruct in_config.
  - unfold bind. erewrite call_connected by reflexivity. simpl.
    eexists. by rewrite <- app_assoc.
  - unfold bind, ret. simpl. eexists. by rewrite !app_nil_r.
Qed.

Lemma accepted_first_unsafe (v : validator) (os_type : string) (batch : list string) :
  (∀ cmd, cmd ∈ batch → is_safe v cmd os_type = true) →
  first_unsafe v os_type batch = None.
Proof.
  intros H. apply find_all_false. intros cmd Hin. by rewrite (H cmd Hin).
Qed.

Lemma some_needs_config (v : validator) (os_type : string) (batch : list string) :
  (∃ cmd, cmd ∈ batch ∧ needs_config_mode v cmd os_type = true) →
  existsb (λ cmd, needs_config_mode v cmd os_type) batch = true.
Proof.
  intros (cmd & Hin & Hn). apply existsb_exists. exists cmd.
  by rewrite <- list_elem_of_In.
Qed.

Lemma nonempty_batch (batch : list string) (cmd : string) :
  cmd ∈ batch → bool_decide (batch = []) = false.
Proof. intros Hin. apply bool_decide_eq_false. by intros ->; inversion Hin. Qed.

End ExecutorFacts.

Section ExecutorClaims.

Import Executor.

Abbreviation connector := DeviceConnector.Make.

(** C1.  If the validator finds some command of the submitted batch
    unsafe, the call returns a failure ([None] with a message) and the
    executor, connector included, is as before: no command of the batch was
    handed to [execute_command]. *)
Theorem unsafe_batch_sends_nothing (self : t) (commands_str os_type : string)
        (ask_confirmation : bool) (cmd : string) :
  cmd ∈ commands_to_execute commands_str →
  is_safe (command_validator self) cmd os_type = false →
  ∃ msg,
    execute_commands_on_device self commands_str os_type ask_confirmation
    = (Return (None, msg), self) ∧
    (msg = "Device not connected." ∨
     ∃ bad, bad ∈ commands_to_execute commands_str ∧
            is_safe (command_validator self) bad os_type = false ∧
            msg = "Command '" +:+ bad +:+ "' is unsafe.").
Proof.
  intros Hin Hbad. destruct self as [[dc|] v]; simpl in *.
  2: { eexists. split; [reflexivity|]. by left. }
  unfold execute_commands_on_device. simpl.
  destruct (DeviceConnector.client dc) as [device|] eqn:Hc.
  2: { eexists. split; [reflexivity|]. by left. }
  unfold execute_connected. rewrite (nonempty_batch _ _ Hin).
  destruct (find_some_true (λ c, negb (is_safe v c os_type)) _ cmd Hin)
    as (bad & Hfind & Hbin & Hb); [by rewrite Hbad|].
  unfold first_unsafe. rewrite Hfind. unfold ret.
  eexists. split; [reflexivity|]. right. exists bad.
  apply negb_true_iff in Hb. done.
Qed.

Lemma unsafe_batch_sends_nothing_witness :
  "reload" ∈ commands_to_execute ("show version" +:+ Str.nl +:+ "reload") ∧
  is_safe app_validator "reload" "cisco_ios" = false ∧
  ∃ msg,
    execute_commands_on_device (executor_on silent_device)
      ("show version" +:+ Str.nl +:+ "reload") "cisco_ios" false
    = (Return (None, msg), executor_on silent_device) ∧
    (msg = "Device not connected." ∨
     ∃ bad, bad ∈ commands_to_execute ("show version" +:+ Str.nl +:+ "reload") ∧
            is_safe app_validator bad "cisco_ios" = false ∧
            msg = "Command '" +:+ bad +:+ "' is unsafe.").
Proof.
  assert ("reload" ∈ commands_to_execute ("show version" +:+ Str.nl +:+ "reload"))
    as Hin by (apply list_elem_of_In; vm_compute; tauto).
  split; [exact Hin|]. split; [reflexivity|].
  apply (unsafe_batch_sends_nothing (executor_on silent_device)
           ("show version" +:+ Str.nl +:+ "reload") "cisco_ios" false "reload").
  - exact Hin.
  - reflexivity.
Defined.

(** C2, as stated, fails: the answer to ["configure terminal"] holds no
    acknowledgment, and the batch is executed all the same. *)
Lemma unacknowledged_entry_not_aborted :
  commands_to_execute "interface Loopback0" = ["interface Loopback0"] ∧
  is_safe app_validator "interface Loopback0" "cisco_ios" = true ∧
  needs_config_mode app_validator "interface Loopback0" "cisco_ios" = true ∧
  Str.contains "Enter configuration commands"
               (silent_device [] "configure terminal") = false ∧
  (execute_commands_on_device (executor_on silent_device)
     "interface Loopback0" "cisco_ios" false).1
  = Return (Some ("configure terminal" +:+ Str.nl +:+ Str.nl
                  +:+ "$ interface Loopback0" +:+ Str.nl +:+ Str.nl
                  +:+ "end" +:+ Str.nl +:+ Str.nl),
            "Commands executed successfully.") ∧
  sent_by (execute_commands_on_device (executor_on silent_device)
             "interface Loopback0" "cisco_ios" false).2
  = ["configure terminal"; "interface Loopback0"; "end"].
Proof. by_evaluation. Qed.

(** C2, amended.  On a cisco_ios session, when the accepted batch needs
    configuration mode and the answer to ["configure terminal"] does not
    contain ["Enter configuration commands"] and contains
    ["% Invalid input"], the call stops there: it returns the transcript of
    the entry attempt with the status "Failed to enter Cisco config mode."
    and no command of the batch is sent. *)
Theorem refused_entry_aborts (self : t) (dc : DeviceConnector.t)
        (device : DeviceConnector.remote) (commands_str : string)
        (ask_confirmation : bool) :
  device_connector self = Some dc →
  DeviceConnector.client dc = Some device →
  (∀ cmd, cmd ∈ commands_to_execute commands_str →
          is_safe (command_validator self) cmd "cisco_ios" = true) →
  (∃ cmd, cmd ∈ commands_to_execute commands_str ∧
          needs_config_mode (command_validator self) cmd "cisco_ios" = true) →
  Str.contains "Enter configuration commands"
               (device (DeviceConnector.sent dc) "configure terminal") = false →
  Str.contains "% Invalid input"
               (device (DeviceConnector.sent dc) "configure terminal") = true →
  ∃ self',
    execute_commands_on_device self commands_str "cisco_ios" ask_confirmation
    = (Return (Some ("configure terminal" +:+ Str.nl
                     +:+ device (DeviceConnector.sent dc) "configure terminal"
                     +:+ Str.nl),
               "Failed to enter Cisco config mode."), self') ∧
    sent_by self' = (sent_by self ++ ["configure terminal"])%list.
Proof.
  intros Hdc Hc Hsafe Hneed Hack Hinv.
  destruct self as [odc v]. simpl in *. subst odc.
  unfold execute_commands_on_device, sent_by. simpl. rewrite Hc.
  unfold execute_connected.
  destruct Hneed as (cmd & Hin & Hn).
  rewrite (nonempty_batch _ _ Hin), (accepted_first_unsafe _ _ _ Hsafe).
  rewrite andb_false_r.
  rewrite (some_needs_config v "cisco_ios" _ (ex_intro _ cmd (conj Hin Hn))).
  simpl. unfold bind. rewrite (call_connected dc device _ Hc). simpl.
  unfold ret. rewrite Hack, Hinv. eexists. split; reflexivity.
Qed.

Lemma refused_entry_aborts_witness :
  ∃ self',
    execute_commands_on_device (executor_on refusing_device)
      "interface Loopback0" "cisco_ios" false
    = (Return (Some ("configure terminal" +:+ Str.nl
                     +:+ "% Invalid input detected at '^' marker." +:+ Str.nl),
               "Failed to enter Cisco config mode."), self') ∧
    sent_by self' = ([] ++ ["configure terminal"])%list.
Proof.
  apply (refused_entry_aborts (executor_on refusing_device)
           (connector "test-device" (Some refusing_device) [])
           refusing_device "interface Loopback0" false).
  - reflexivity.
  - reflexivity.
  - intros cmd Hin. apply list_elem_of_In in Hin. vm_compute in Hin.
    destruct Hin as [<-|[]]. reflexivity.
  - exists "interface Loopback0". split; [|reflexivity].
    apply list_elem_of_In. vm_compute. tauto.
  - reflexivity.
  - reflexivity.
Defined.

(** C3 does not hold of the code: the device of
    [test_execute_commands_with_error_in_output] answers with
    ["% Invalid input detected"], the feedback parser classifies that answer
    as a failure, and the batch status is the success text; the test expects
    "One or more commands may have failed.". *)
Theorem failed_command_reported_as_success :
  commands_to_execute "show something wrong" = ["show something wrong"] ∧
  is_safe app_validator "show something wrong" "linux" = true ∧
  FeedbackParser.success
    (FeedbackParser.parse_output "show something wrong"
       (Some (faulty_device [] "show something wrong")) "linux") = false ∧
  (execute_commands_on_device (executor_on faulty_device)
     "show something wrong" "linux" false).1
  = Return (Some ("$ show something wrong" +:+ Str.nl
                  +:+ "blah blah" +:+ Str.nl +:+ "% Invalid input detected"
                  +:+ Str.nl +:+ "blah" +:+ Str.nl),
            "Commands executed successfully.") ∧
  sent_by (execute_commands_on_device (executor_on faulty_device)
             "show something wrong" "linux" false).2
  = ["show something wrong"].
Proof. by_evaluation. Qed.

(** Whatever the device answers, a batch that reaches the execution loop
    ends with the success text: [error_occurred] is never set. *)
Lemma status_ignores_answers (commands : list string) (full_output : string)
      (in_config : bool) (dc : DeviceConnector.t) (device : DeviceConnector.remote) :
  DeviceConnector.client dc = Some device →
  ∃ out dc',
    run_batch commands full_output false in_config dc =
    (Return (Some out, "Commands executed successfully."), dc').
Proof.
  intros Hc.
  destruct (run_batch_connected commands full_output in_config dc device Hc)
    as [out Hout].
  eauto.
Qed.

(** C4, as stated, fails: the batch is accepted and needs configuration
    mode, the router refuses ["configure terminal"], and only that command
    is sent. *)
Lemma refused_entry_breaks_bracket :
  commands_to_execute "interface Loopback0" = ["interface Loopback0"] ∧
  is_safe app_validator "interface Loopback0" "cisco_ios" = true ∧
  needs_config_mode app_validator "interface Loopback0" "cisco_ios" = true ∧
  sent_by (executor_on refusing_device) = [] ∧
  sent_by (execute_commands_on_device (executor_on refusing_device)
             "interface Loopback0" "cisco_ios" false).2
  = ["configure terminal"] ∧
  ["configure terminal"]
  ≠ ["configure terminal"; "interface Loopback0"; "end"].
Proof.
  do 5 (split; [vm_compute; reflexivity|]). discriminate.
Qed.

(** C4, amended.  On a cisco_ios session, for an accepted batch in which
    some command, at any position, needs configuration mode, and unless the
    answer to ["configure terminal"] lacks ["Enter configuration commands"]
    and contains ["% Invalid input"], the commands sent are exactly, in
    order: ["configure terminal"], every command of the batch in submission
    order, ["end"].  This holds whatever the device answers to the commands
    of the batch. *)
Theorem config_batch_is_bracketed (self : t) (dc : DeviceConnector.t)
        (device : DeviceConnector.remote) (commands_str : string)
        (ask_confirmation : bool) :
  device_connector self = Some dc →
  DeviceConnector.client dc = Some device →
  (∀ cmd, cmd ∈ commands_to_execute commands_str →
          is_safe (command_validator self) cmd "cisco_ios" = true) →
  (∃ cmd, cmd ∈ commands_to_execute commands_str ∧
          needs_config_mode (command_validator self) cmd "cisco_ios" = true) →
  (Str.contains "Enter configuration commands"
                (device (DeviceConnector.sent dc) "configure terminal") = true ∨
   Str.contains "% Invalid input"
                (device (DeviceConnector.sent dc) "configure terminal") = false) →
  ∃ full_output self',
    execute_commands_on_device self commands_str "cisco_ios" ask_confirmation
    = (Return (Some full_output, "Commands executed successfully."), self') ∧
    sent_by self'
    = (sent_by self ++ ["configure terminal"]
         ++ commands_to_execute commands_str ++ ["end"])%list.
Proof.
  intros Hdc Hc Hsafe Hneed Hentry.
  destruct self as [odc v]. simpl in *. subst odc.
  unfold execute_commands_on_device, sent_by. simpl. rewrite Hc.
  unfold execute_connected.
  destruct Hneed as (cmd & Hin & Hn).
  rewrite (nonempty_batch _ _ Hin), (accepted_first_unsafe _ _ _ Hsafe).
  rewrite andb_false_r.
  rewrite (some_needs_config v "cisco_ios" _ (ex_intro _ cmd (conj Hin Hn))).
  simpl. unfold bind at 1. rewrite (call_connected dc device _ Hc).
  set (dc1 := connector _ _ _). unfold str_in.
  match goal with
  | |- context [run_batch ?c ?fo false true] =>
      destruct (run_batch_connected c fo true dc1 device eq_refl) as [out Hout]
  end.
  exists out. eexists. unfold bind, ret.
  destruct (Str.contains "Enter configuration commands" _) eqn:Hack.
  - rewrite Hout. split; [reflexivity|]. simpl. by rewrite <- app_assoc.
  - destruct Hentry as [?| ->]; [congruence|].
    rewrite Hout. split; [reflexivity|]. simpl. by rewrite <- app_assoc.
Qed.

Lemma config_batch_is_bracketed_witness :
  commands_to_execute three_commands
  = ["show version"; "interface Loopback0"; "show ip route"] ∧
  existsb (λ cmd, needs_config_mode app_validator cmd "cisco_ios")
          (commands_to_execute three_commands) = true ∧
  ∃ full_output self',
    execute_commands_on_device (executor_on strict_router) three_commands
                               "cisco_ios" true
    = (Return (Some full_output, "Commands executed successfully."), self') ∧
    sent_by self'
    = ([] ++ ["configure terminal"]
          ++ commands_to_execute three_commands ++ ["end"])%list.
Proof.
  split; [vm_compute; reflexivity|]. split; [vm_compute; reflexivity|].
  apply (config_batch_is_bracketed (executor_on strict_router)
           (connector "test-device" (Some strict_router) [])
           strict_router three_commands true).
  - reflexivity.
  - reflexivity.
  - intros cmd Hin. apply list_elem_of_In in Hin. vm_compute in Hin.
    destruct Hin as [<-|[<-|[<-|[]]]]; reflexivity.
  - exists "interface Loopback0". split; [|reflexivity].
    apply list_elem_of_In. vm_compute. tauto.
  - left. reflexivity.
Defined.

End ExecutorClaims.

(** ** The Linux interface parser *)
Section ContextBuilderFacts.

Import ContextBuilder.

Lemma link_status_cases (details_part s : string) :
  link_status details_part = Some s →
  s = "UP" ∨ s = "UNKNOWN" ∨
  (Str.contains "state " details_part = true ∧
   ∃ status_part, state_token details_part = Some status_part ∧
                  s = Str.upper status_part).
Proof.
  unfold link_status. destruct (Str.contains "state " details_part).
  - intros (tok & Htok & [= <-])%bind_Some. right. right. eauto.
  - destruct (_ && _); [|intros [= <-]; auto].
    intros (flags & _ & H)%bind_Some.
    destruct (bool_decide _); injection H as <-; auto.
Qed.

Lemma well_formed_empty (L : list string) : well_formed L ∅.
Proof. intros name v H. by rewrite lookup_empty in H. Qed.

Lemma open_interface_well_formed (L : list string) (interfaces : gmap string iface)
      (line : string) :
  well_formed L interfaces → line ∈ L → is_header line = true →
  well_formed L (open_interface interfaces line).1.
Proof.
  intros Hwf Hin Hhead. unfold open_interface.
  destruct (Str.splitn ":" 2 line !! 1%nat) as [name_part|] eqn:Hname; [|done].
  case_bool_decide as Hlo; [done|].
  destruct (Str.splitn ":" 2 line !! 2%nat ≫= link_status) as [st|] eqn:Hst; simpl.
  - apply bind_Some in Hst as (details & Hdet & Hls).
    intros name v Hlook.
    destruct (decide (name = Str.strip name_part)) as [->|Hne].
    + rewrite lookup_insert_eq in Hlook. injection Hlook as <-.
      split; [done|]. simpl. intros s [= <-].
      exists line, details. split; [done|]. split; [|done].
      split; [done|]. split; [by rewrite Hname|done].
    + rewrite !lookup_insert_ne in Hlook by done. by apply Hwf.
  - intros name v Hlook.
    destruct (decide (name = Str.strip name_part)) as [->|Hne].
    + rewrite lookup_insert_eq in Hlook. injection Hlook as <-.
      split; [done|]. intros s Hs. discriminate Hs.
    + rewrite lookup_insert_ne in Hlook by done. by apply Hwf.
Qed.

Lemma set_ip_once_status (ip : string) (v : iface) :
  status (set_ip_once ip v) = status v.
Proof. unfold set_ip_once. by destruct (ip_address v). Qed.

Lemma add_address_well_formed (L : list string) (interfaces : gmap string iface)
      (name stripped_line : string) :
  well_formed L interfaces →
  well_formed L (add_address interfaces name stripped_line).
Proof.
  intros Hwf. unfold add_address.
  destruct (Str.split_ws stripped_line !! 1%nat) as [ip|]; [|done].
  intros k v Hlook. rewrite lookup_alter in Hlook. case_decide as Hk.
  - subst k. destruct (interfaces !! name) as [w|] eqn:Hw; [|done].
    injection Hlook as <-. rewrite set_ip_once_status. by apply Hwf.
  - by apply Hwf.
Qed.

Lemma step_well_formed (L : list string) (st : loop_state) (line : string) :
  well_formed L st.1 → line ∈ L → well_formed L (step st line).1.
Proof.
  destruct st as [interfaces current]. simpl. intros Hwf Hin.
  destruct (is_header line) eqn:Hhead.
  - by apply open_interface_well_formed.
  - destruct current as [name|]; [|done].
    destruct (_ && _); [|done]. simpl. by apply add_address_well_formed.
Qed.

Lemma fold_well_formed (L lines : list string) (st : loop_state) :
  well_formed L st.1 → (∀ line, line ∈ lines → line ∈ L) →
  well_formed L (fold_left step lines st).1.
Proof.
  revert st. induction lines as [|line lines IH]; intros st Hwf Hsub; [done|].
  simpl. apply IH.
  - apply step_well_formed; [done|]. apply Hsub. by left.
  - intros l Hl. apply Hsub. by right.
Qed.

Lemma scan_well_formed (text : string) :
  well_formed (Str.splitlines text) (scan text).1.
Proof. apply fold_well_formed; [apply well_formed_empty|done]. Qed.

Lemma step_current_known (st : loop_state) (line : string) :
  current_known st → current_known (step st line).
Proof.
  destruct st as [interfaces current]. intros Hk. unfold step.
  destruct (is_header line).
  - unfold open_interface.
    destruct (Str.splitn ":" 2 line !! 1%nat) as [name_part|]; [|by intros ?].
    case_bool_decide; [by intros ?|].
    destruct (_ ≫= link_status); [|by intros ?].
    intros name [= <-]. simpl. rewrite lookup_insert_eq. eauto.
  - destruct current as [name|]; [|done].
    destruct (_ && _); [|done].
    intros k [= <-]. simpl. unfold add_address.
    destruct (Str.split_ws _ !! 1%nat); [|by apply Hk].
    rewrite lookup_alter, decide_True by done.
    destruct (Hk name eq_refl) as [w Hw]. simpl in Hw. rewrite Hw. simpl. eauto.
Qed.

Lemma current_is_key (text : string) : current_known (scan text).
Proof.
  unfold scan. generalize (Str.splitlines text).
  assert (current_known (∅, None)) as H0 by (by intros ?).
  revert H0. generalize ((∅, None) : loop_state).
  intros st Hst l. revert st Hst.
  induction l as [|line l IH]; intros st Hst; [done|].
  simpl. apply IH. by apply step_current_known.
Qed.

Lemma kept_true (v : iface) :
  kept v = true → v ≠ no_fields ∧ ∃ s, status v = Some s ∧ s ≠ "".
Proof.
  unfold kept. intros [Hf Hs]%andb_true_iff. split.
  - intros ->. discriminate Hf.
  - destruct (status v) as [s|]; [|done]. exists s. split; [done|].
    by apply truthy_true.
Qed.

(** The cleaned mapping, as a function of the text of ["ip addr"]. *)
Lemma parsed_interfaces_have_status (output : option string) (name : string)
      (v : iface) :
  parse_linux_interfaces_of output !! name = Some v →
  name ≠ "lo" ∧ v ≠ no_fields ∧
  ∃ s, status v = Some s ∧ s ≠ "" ∧
       (s = "UP" ∨ s = "UNKNOWN" ∨
        ∃ text line details_part status_part,
          output = Some text ∧ line ∈ Str.splitlines text ∧
          header_of line name details_part ∧
          state_token details_part = Some status_part ∧
          s = Str.upper status_part).
Proof.
  unfold parse_linux_interfaces_of.
  intros [Hlook Hkept]%map_lookup_filter_Some. simpl in Hkept.
  destruct (kept_true v Hkept) as (Hv & s & Hs & Hne).
  destruct output as [text|]; [|by rewrite lookup_empty in Hlook].
  destruct (Str.truthy text); [|by rewrite lookup_empty in Hlook].
  destruct (scan_well_formed text name v Hlook) as [Hlo Hst].
  split; [done|]. split; [done|]. exists s. split; [done|]. split; [done|].
  destruct (Hst s Hs) as (line & details & Hin & Hhead & Hls).
  destruct (link_status_cases _ _ Hls) as [?|[?|(_ & tok & Htok & ->)]]; auto.
  right. right. exists text, line, details, tok. done.
Qed.

(** On that text the loop opens four records; the one of the header line
    without details stays empty and is dropped, and ["lo"] is never opened. *)
Lemma ip_addr_text_parsed :
  map_to_list (scan ip_addr_text).1
  = [("eth0", Iface (Some "UP") (Some "192.168.1.100/24"));
     ("broken", no_fields);
     ("docker0", Iface (Some "DOWN") (Some "172.17.0.1/16"))] ∧
  map_to_list (_parse_linux_interfaces linux_host).1
  = [("eth0", Iface (Some "UP") (Some "192.168.1.100/24"));
     ("docker0", Iface (Some "DOWN") (Some "172.17.0.1/16"))].
Proof. split; vm_compute; reflexivity. Qed.

(** C10.  Every record of the mapping returned by the Linux interface
    parser has a populated status: a non-empty text that is ["UP"],
    ["UNKNOWN"], or the upper-cased token after ["state "] of a header line
    naming the interface.  No key of the mapping is ["lo"], and no record of
    the mapping is empty, as a header line without details would leave it. *)
Theorem linux_interfaces_have_status (dc : DeviceConnector.t) (name : string)
        (v : iface) :
  (_parse_linux_interfaces dc).1 !! name = Some v →
  name ≠ "lo" ∧ v ≠ no_fields ∧
  ∃ s, status v = Some s ∧ s ≠ "" ∧
       (s = "UP" ∨ s = "UNKNOWN" ∨
        ∃ text line details_part status_part,
          (DeviceConnector.execute_command dc "ip addr").1 = Some text ∧
          line ∈ Str.splitlines text ∧
          header_of line name details_part ∧
          state_token details_part = Some status_part ∧
          s = Str.upper status_part).
Proof.
  unfold _parse_linux_interfaces.
  destruct (DeviceConnector.execute_command dc "ip addr") as [output dc'].
  simpl. apply parsed_interfaces_have_status.
Qed.

Lemma linux_interfaces_have_status_witness :
  (_parse_linux_interfaces linux_host).1 !! "docker0"
  = Some (Iface (Some "DOWN") (Some "172.17.0.1/16")) ∧
  "docker0" ≠ "lo" ∧
  Iface (Some "DOWN") (Some "172.17.0.1/16") ≠ no_fields ∧
  ∃ s, status (Iface (Some "DOWN") (Some "172.17.0.1/16")) = Some s ∧ s ≠ "" ∧
       (s = "UP" ∨ s = "UNKNOWN" ∨
        ∃ text line details_part status_part,
          (DeviceConnector.execute_command linux_host "ip addr").1 = Some text ∧
          line ∈ Str.splitlines text ∧
          header_of line "docker0" details_part ∧
          state_token details_part = Some status_part ∧
          s = Str.upper status_part).
Proof.
  split; [vm_compute; reflexivity|].
  apply (linux_interfaces_have_status linux_host "docker0"
           (Iface (Some "DOWN") (Some "172.17.0.1/16"))).
  vm_compute. reflexivity.
Defined.

End ContextBuilderFacts.

(** * Further properties *)

(** ** Characters and case *)
Section CaseFacts.

Ltac by_cases_on a := destruct a as [[] [] [] [] [] [] [] []]; vm_compute; reflexivity.

Lemma lower_char_idem (a : ascii) :
  Str.lower_char (Str.lower_char a) = Str.lower_char a.
Proof. by_cases_on a. Qed.



Lemma lower_idem (s : string) : Str.lower (Str.lower s) = Str.lower s.
Proof.
  induction s as [|a s IH]; [done|].
  unfold Str.lower in *. simpl. by rewrite lower_char_idem, IH.
Qed.













(** A pattern text without backslash is a literal: it is found in a text
    exactly when its lower-cased form occurs in the lower-cased text. *)
Lemma compile_literal (c : ascii) (p : string) :
  c ≠ "\"%char → Re.compile (String c p) = Re.Lit c :: Re.compile p.
Proof.
  intros Hc. destruct c as [[] [] [] [] [] [] [] []]; try reflexivity.
  by destruct Hc.
Qed.

Lemma no_backslash_head (c : ascii) (p : string) :
  Str.contains "\" (String c p) = false →
  c ≠ "\"%char ∧ Str.contains "\" p = false.
Proof.
  simpl. intros [H1 H2]%orb_false_iff. split; [|done].
  intros ->. destruct p; vm_compute in H1; discriminate H1.
Qed.

Lemma lit_matches_dec (c a : ascii) :
  Re.lit_matches c a =
  if Ascii.ascii_dec (Str.lower_char c) (Str.lower_char a) then true else false.
Proof.
  unfold Re.lit_matches. destruct (Ascii.ascii_dec _ _) as [H|H].
  - by apply bool_decide_eq_true.
  - by apply bool_decide_eq_false.
Qed.

Lemma match_here_literal (p : string) :
  Str.contains "\" p = false →
  ∀ prev s,
    Re.match_here (Re.compile p) prev s = Str.startswith (Str.lower p) (Str.lower s).
Proof.
  induction p as [|c p IH]; intros Hp prev s.
  - by destruct s.
  - apply no_backslash_head in Hp as [Hc Hp].
    rewrite (compile_literal c p Hc).
    destruct s as [|a s]; [done|]. simpl.
    rewrite lit_matches_dec, (IH Hp (Some a) s). unfold Str.startswith.
    by destruct (Ascii.ascii_dec _ _).
Qed.

Lemma search_literal (p text : string) :
  Str.contains "\" p = false →
  Re.search p text = Str.contains (Str.lower p) (Str.lower text).
Proof.
  intros Hp. unfold Re.search. generalize (@None ascii).
  induction text as [|a s IH]; intros prev; simpl.
  - f_equal. apply (match_here_literal p Hp prev "").
  - f_equal; [apply (match_here_literal p Hp prev (String a s))|apply (IH (Some a))].
Qed.

(** X2.  A pattern of a dialect's list that holds no backslash works as a
    plain substring test: a command line whose lower-cased text contains
    the lower-cased pattern anywhere, inside a longer word included, is
    unsafe for that dialect. *)
Theorem literal_pattern_rejects_substring (os_type : string) (patterns : list string)
        (pattern command : string) :
  CommandValidator.destructive_patterns !! os_type = Some patterns →
  pattern ∈ patterns →
  Str.contains "\" pattern = false →
  Str.contains (Str.lower pattern) (Str.lower command) = true →
  CommandValidator.is_safe command os_type = false.
Proof.
  intros Hos Hin Hlit Hsub. rewrite is_safe_eq.
  unfold CommandValidator.matches_destructive. rewrite Hos.
  replace (existsb _ patterns) with true; [done|].
  symmetry. apply existsb_exists. exists pattern.
  split; [by apply list_elem_of_In|]. by rewrite search_literal.
Qed.

Lemma literal_pattern_rejects_substring_witness :
  CommandValidator.is_safe "echo Rebooting soon" "linux" = false.
Proof.
  apply (literal_pattern_rejects_substring "linux"
           ["\brm\s+-rf"; "\bmkfs"; "\bfdisk"; "\bdd\b"; "reboot"; "shutdown"; "poweroff"]
           "reboot" "echo Rebooting soon").
  - reflexivity.
  - apply list_elem_of_In. simpl. tauto.
  - reflexivity.
  - reflexivity.
Defined.

End CaseFacts.

(** ** Lines, stripping and batches *)
Section LineFacts.

Lemma app_assoc_string (s t u : string) : (s +:+ t) +:+ u = s +:+ (t +:+ u).
Proof.
  induction s as [|a s IH]; [done|].
  change (String a ((s +:+ t) +:+ u) = String a (s +:+ (t +:+ u))). by rewrite IH.
Qed.

Lemma all_chars_snoc (P : ascii → bool) (s : string) (c : ascii) :
  all_chars P (Str.snoc s c) = all_chars P s && P c.
Proof.
  induction s as [|a s IH].
  - simpl. by rewrite andb_true_r.
  - change (Str.snoc (String a s) c) with (String a (Str.snoc s c)).
    simpl. by rewrite IH, andb_assoc.
Qed.

Lemma all_chars_weaken (P Q : ascii → bool) (s : string) :
  (∀ c, P c = true → Q c = true) → all_chars P s = true → all_chars Q s = true.
Proof.
  intros HPQ. induction s as [|a s IH]; [done|]. simpl.
  intros [Ha Hs]%andb_true_iff. by rewrite (HPQ a Ha), IH.
Qed.

Lemma blank_all_chars (s : string) : Str.blank s = all_chars Str.isspace s.
Proof. induction s as [|a s IH]; [done|]. simpl. by rewrite IH. Qed.

Lemma all_chars_lstrip (P : ascii → bool) (s : string) :
  all_chars P s = true → all_chars P (Str.lstrip s) = true.
Proof.
  induction s as [|a s IH]; [done|]. simpl.
  intros [Ha Hs]%andb_true_iff. destruct (Str.isspace a); [auto|].
  simpl. by rewrite Ha, Hs.
Qed.

Lemma all_chars_rstrip (P : ascii → bool) (s : string) :
  all_chars P s = true → all_chars P (Str.rstrip s) = true.
Proof.
  induction s as [|a s IH]; [done|]. simpl.
  intros [Ha Hs]%andb_true_iff. specialize (IH Hs).
  destruct (Str.rstrip s); simpl in *.
  - destruct (Str.isspace a); [done|]. simpl. by rewrite Ha.
  - by rewrite Ha, IH.
Qed.

Lemma all_chars_strip (P : ascii → bool) (s : string) :
  all_chars P s = true → all_chars P (Str.strip s) = true.
Proof. intros H. by apply all_chars_rstrip, all_chars_lstrip. Qed.

(** What is appended to the current line is never a line boundary. *)
Lemma splitlines_go_all (P : ascii → bool) (n : nat) :
  ∀ s cur,
    (String.length s ≤ n)%nat →
    all_chars P cur = true →
    all_chars (λ c, Str.islinebreak c || P c) s = true →
    ∀ line, line ∈ Str.splitlines_go cur s → all_chars P line = true.
Proof.
  induction n as [|n IH]; intros s cur Hlen Hcur Hs line Hin.
  - destruct s; [|simpl in Hlen; lia]. simpl in Hin.
    destruct (Str.truthy cur); [|by apply elem_of_nil in Hin].
    by apply list_elem_of_singleton in Hin as ->.
  - destruct s as [|c s].
    { simpl in Hin. destruct (Str.truthy cur); [|by apply elem_of_nil in Hin].
      by apply list_elem_of_singleton in Hin as ->. }
    simpl in Hlen, Hs, Hin. apply andb_true_iff in Hs as [Hc Hs].
    destruct (Str.islinebreak c) eqn:Hlb.
    + apply elem_of_cons in Hin as [->|Hin]; [done|].
      destruct s as [|d s'].
      * by apply (IH "" "" ltac:(simpl; lia) eq_refl eq_refl).
      * assert (all_chars (λ c, Str.islinebreak c || P c) s' = true) as Hs'
          by (simpl in Hs; by apply andb_true_iff in Hs as [_ ?]).
        simpl in Hlen.
        assert (line ∈ Str.splitlines_go "" s' ∨
                line ∈ Str.splitlines_go "" (String d s')) as [H|H].
        { revert Hin. destruct d as [[] [] [] [] [] [] [] []];
            try (by right); case_bool_decide; auto. }
        -- apply (IH s' ""); [lia|done|done|done].
        -- apply (IH (String d s') ""); [simpl; lia|done|done|done].
    + simpl in Hc. apply (IH s (Str.snoc cur c)); [lia| |done|done].
      by rewrite all_chars_snoc, Hcur, Hc.
Qed.

Lemma lines_have_no_linebreak (s line : string) :
  line ∈ Str.splitlines s →
  all_chars (λ c, negb (Str.islinebreak c)) line = true.
Proof.
  apply (splitlines_go_all _ (String.length s)); [done|done|].
  induction s as [|a s IH]; [done|]. simpl. rewrite IH.
  by destruct (Str.islinebreak a).
Qed.

Lemma lines_of_blank (s line : string) :
  Str.blank s = true → line ∈ Str.splitlines s → Str.blank line = true.
Proof.
  rewrite !blank_all_chars. intros Hs.
  apply (splitlines_go_all _ (String.length s)); [done|done|].
  revert Hs. apply all_chars_weaken. intros c ->. apply orb_true_r.
Qed.

Lemma rstrip_not_space (c : ascii) (s : string) :
  Str.isspace c = false → Str.rstrip (String c s) = String c (Str.rstrip s).
Proof. intros Hc. simpl. rewrite Hc. by destruct (Str.rstrip s). Qed.

Lemma rstrip_idem (s : string) : Str.rstrip (Str.rstrip s) = Str.rstrip s.
Proof.
  induction s as [|a s IH]; [done|]. simpl.
  destruct (Str.rstrip s) as [|d r] eqn:Hr.
  - destruct (Str.isspace a) eqn:Ha; [done|]. simpl. by rewrite Ha.
  - change (Str.rstrip (String a (String d r)) = String a (String d r)).
    simpl. simpl in IH. by rewrite IH.
Qed.

Lemma strip_idem (s : string) : Str.strip (Str.strip s) = Str.strip s.
Proof.
  unfold Str.strip. destruct (Str.blank s) eqn:Hb.
  - by rewrite (lstrip_blank s Hb).
  - destruct (lstrip_not_blank s Hb) as (c & s' & -> & Hc).
    rewrite (rstrip_not_space c s' Hc). simpl. rewrite Hc.
    rewrite <- (rstrip_not_space c s' Hc). apply rstrip_idem.
Qed.

Lemma blank_strip_empty (s : string) : Str.strip s = "" → Str.blank s = true.
Proof.
  intros Hs. destruct (Str.blank s) eqn:Hb; [done|].
  by destruct (strip_not_blank s Hb).
Qed.

Lemma batch_member (commands_str cmd : string) :
  cmd ∈ Executor.commands_to_execute commands_str ↔
  ∃ line, line ∈ Str.splitlines commands_str ∧ Str.strip line ≠ "" ∧
          cmd = Str.strip line.
Proof.
  unfold Executor.commands_to_execute. rewrite list_elem_of_fmap. split.
  - intros (line & -> & Hin). apply list_elem_of_In, List.filter_In in Hin as [Hin Ht].
    exists line. split; [by apply list_elem_of_In|]. split; [|done].
    by apply truthy_true.
  - intros (line & Hin & Hne & ->). exists line. split; [done|].
    apply list_elem_of_In, List.filter_In. split; [by apply list_elem_of_In|].
    by apply truthy_true.
Qed.

(** X3.  Every command of a batch is one stripped, non-empty line of the
    submitted text: it is not empty, has no white space at either end
    ([strip] leaves it as it is) and holds no line-break character. *)
Theorem batch_commands_are_clean_lines (commands_str cmd : string) :
  cmd ∈ Executor.commands_to_execute commands_str →
  cmd ≠ "" ∧ Str.strip cmd = cmd ∧ Str.blank cmd = false ∧
  all_chars (λ c, negb (Str.islinebreak c)) cmd = true.
Proof.
  intros (line & Hin & Hne & ->)%batch_member.
  split; [done|]. split; [apply strip_idem|]. split.
  - destruct (Str.blank (Str.strip line)) eqn:Hb; [|done].
    apply strip_blank in Hb. rewrite strip_idem in Hb. done.
  - by apply all_chars_strip, lines_have_no_linebreak with commands_str.
Qed.

Lemma batch_commands_are_clean_lines_witness :
  Executor.commands_to_execute
    ("  show version  " +:+ Str.nl +:+ "   " +:+ Str.nl +:+ "show ip route")
  = ["show version"; "show ip route"] ∧
  Str.strip "show version" = "show version".
Proof.
  split; [vm_compute; reflexivity|].
  apply (batch_commands_are_clean_lines
           ("  show version  " +:+ Str.nl +:+ "   " +:+ Str.nl +:+ "show ip route")
           "show version").
  apply list_elem_of_In. vm_compute. tauto.
Defined.

Lemma blank_text_has_no_commands (commands_str : string) :
  Str.blank commands_str = true → Executor.commands_to_execute commands_str = [].
Proof.
  intros Hb. destruct (Executor.commands_to_execute commands_str) as [|cmd l] eqn:E;
    [done|].
  assert (cmd ∈ Executor.commands_to_execute commands_str) as Hin
    by (rewrite E; by left).
  apply batch_member in Hin as (line & Hin & Hne & _).
  destruct Hne. apply strip_blank. by apply lines_of_blank with commands_str.
Qed.

End LineFacts.

(** ** More on the executor *)
Section ExecutorMore.

Import Executor.

Abbreviation connector := DeviceConnector.Make.

Lemma connector_eta (dc : DeviceConnector.t) (device : DeviceConnector.remote) :
  DeviceConnector.client dc = Some device →
  dc = connector (DeviceConnector.hostname dc) (Some device)
                 (DeviceConnector.sent dc ++ []).
Proof. destruct dc as [h c s]. simpl. intros ->. by rewrite app_nil_r. Qed.

(** The execution loop returns its transcript. *)
Lemma run_commands_transcript (commands : list string) :
  ∀ (full_output : string) (dc : DeviceConnector.t) (device : DeviceConnector.remote),
    DeviceConnector.client dc = Some device →
    run_commands commands full_output dc =
    (Return (full_output +:+ transcript device (DeviceConnector.sent dc) commands),
     connector (DeviceConnector.hostname dc) (Some device)
               (DeviceConnector.sent dc ++ commands)).
Proof.
  induction commands as [|cmd rest IH]; intros full_output dc device Hc.
  - simpl. unfold ret. rewrite <- (connector_eta dc device Hc).
    f_equal. f_equal. induction full_output as [|a s IHs]; [done|].
    change (String a s = String a (s +:+ "")). by rewrite <- IHs.
  - simpl. unfold bind. rewrite (call_connected dc device cmd Hc).
    match goal with
    | |- context [run_commands rest ?fo ?d] => rewrite (IH fo d device eq_refl)
    end.
    simpl. rewrite <- app_assoc.
    f_equal. f_equal. by rewrite !app_assoc_string.
Qed.

Lemma run_plain_batch (commands : list string) (dc : DeviceConnector.t)
      (device : DeviceConnector.remote) :
  DeviceConnector.client dc = Some device →
  run_batch commands "" false false dc =
  (Return (Some (transcript device (DeviceConnector.sent dc) commands),
           "Commands executed successfully."),
   connector (DeviceConnector.hostname dc) (Some device)
             (DeviceConnector.sent dc ++ commands)).
Proof.
  intros Hc. unfold run_batch, bind.
  by rewrite (run_commands_transcript commands "" dc device Hc).
Qed.

(** An accepted batch that does not enter configuration mode. *)
Lemma plain_batch_run (v : validator) (commands_str os_type : string)
      (ask_confirmation : bool) (dc : DeviceConnector.t)
      (device : DeviceConnector.remote) :
  DeviceConnector.client dc = Some device →
  commands_to_execute commands_str ≠ [] →
  (∀ cmd, cmd ∈ commands_to_execute commands_str → is_safe v cmd os_type = true) →
  (os_type ≠ "cisco_ios" ∨
   ∀ cmd, cmd ∈ commands_to_execute commands_str →
          needs_config_mode v cmd os_type = false) →
  execute_connected v commands_str os_type ask_confirmation dc =
  (Return (Some (transcript device (DeviceConnector.sent dc)
                            (commands_to_execute commands_str)),
           "Commands executed successfully."),
   connector (DeviceConnector.hostname dc) (Some device)
             (DeviceConnector.sent dc ++ commands_to_execute commands_str)).
Proof.
  intros Hc Hne Hsafe Hplain. unfold execute_connected.
  rewrite (bool_decide_eq_false_2 _ Hne), (accepted_first_unsafe _ _ _ Hsafe).
  rewrite andb_false_r.
  assert (bool_decide (os_type = "cisco_ios")
          && existsb (λ cmd, needs_config_mode v cmd os_type)
                     (commands_to_execute commands_str) = false) as ->.
  { destruct Hplain as [Hos|Hno].
    - by rewrite (bool_decide_eq_false_2 _ Hos).
    - apply andb_false_iff. right. apply not_true_is_false.
      intros (cmd & Hin & Hn)%existsb_exists. apply list_elem_of_In in Hin.
      rewrite (Hno cmd Hin) in Hn. discriminate Hn. }
  by apply run_plain_batch.
Qed.

(** Whatever the input, a connected run ends without an exception, and what
    it sends is made of ["configure terminal"], ["end"] and commands of the
    batch. *)
Lemma execute_connected_frame (v : validator) (commands_str os_type : string)
      (ask_confirmation : bool) (dc : DeviceConnector.t)
      (device : DeviceConnector.remote) :
  DeviceConnector.client dc = Some device →
  ∃ r extra,
    execute_connected v commands_str os_type ask_confirmation dc =
    (Return r, connector (DeviceConnector.hostname dc) (Some device)
                         (DeviceConnector.sent dc ++ extra)) ∧
    ∀ c, c ∈ extra →
         c = "configure terminal" ∨ c = "end" ∨ c ∈ commands_to_execute commands_str.
Proof.
  intros Hc. unfold execute_connected.
  set (batch := commands_to_execute commands_str).
  assert (∀ r : option string * string, ∃ r' extra,
            (Return r, dc) =
            (Return r', connector (DeviceConnector.hostname dc) (Some device)
                                  (DeviceConnector.sent dc ++ extra)) ∧
            ∀ c, c ∈ extra → c = "configure terminal" ∨ c = "end" ∨ c ∈ batch)
    as Hstay.
  { intros r. exists r, []. split; [by rewrite <- connector_eta|].
    intros c Hin. by apply elem_of_nil in Hin. }
  case_bool_decide; [apply Hstay|].
  destruct (first_unsafe v os_type batch); [apply Hstay|].
  rewrite andb_false_r.
  destruct (bool_decide (os_type = "cisco_ios") && _).
  - unfold bind at 1. rewrite (call_connected dc device _ Hc).
    set (dc1 := connector _ _ _). unfold str_in, bind, ret.
    assert (∀ fo, ∃ r' extra,
              run_batch batch fo false true dc1 =
              (Return r', connector (DeviceConnector.hostname dc) (Some device)
                                    (DeviceConnector.sent dc ++ extra)) ∧
              ∀ c, c ∈ extra → c = "configure terminal" ∨ c = "end" ∨ c ∈ batch)
      as Hrun.
    { intros fo.
      destruct (run_batch_connected batch fo true dc1 device eq_refl) as [out ->].
      eexists. exists ("configure terminal" :: batch ++ ["end"]).
      split; [simpl; by rewrite <- app_assoc|].
      intros c [->|[Hin|Hin]%elem_of_app]%elem_of_cons; auto.
      apply list_elem_of_singleton in Hin. auto. }
    destruct (Str.contains "Enter configuration commands" _); [apply Hrun|].
    destruct (Str.contains "% Invalid input" _); [|apply Hrun].
    eexists. exists ["configure terminal"]. split; [reflexivity|].
    intros c ->%list_elem_of_singleton. auto.
  - destruct (run_batch_connected batch "" false dc device Hc) as [out ->].
    eexists. exists batch. split; [by rewrite app_nil_r|]. auto.
Qed.


(** X5.  A call only appends to the log of sent commands, and what it
    appends is made of ["configure terminal"], ["end"] and commands of the
    batch; the validator, the host name and the client of the connector are
    left as they were. *)
Theorem executor_only_appends (self : t) (commands_str os_type : string)
        (ask_confirmation : bool) :
  ∃ extra,
    sent_by (execute_commands_on_device self commands_str os_type
               ask_confirmation).2
    = (sent_by self ++ extra)%list ∧
    (∀ c, c ∈ extra →
          c = "configure terminal" ∨ c = "end" ∨
          c ∈ commands_to_execute commands_str) ∧
    command_validator (execute_commands_on_device self commands_str os_type
                         ask_confirmation).2
    = command_validator self ∧
    DeviceConnector.hostname <$>
      device_connector (execute_commands_on_device self commands_str os_type
                          ask_confirmation).2
    = DeviceConnector.hostname <$> device_connector self ∧
    DeviceConnector.client <$>
      device_connector (execute_commands_on_device self commands_str os_type
                          ask_confirmation).2
    = DeviceConnector.client <$> device_connector self.
Proof.
  assert (∀ l : list string, l = (l ++ [])%list) as Hnil
    by (intros l; by rewrite app_nil_r).
  unfold execute_commands_on_device, sent_by.
  destruct self as [[dc|] v]; simpl.
  2: { exists []. split; [done|]. split; [|done].
       intros c Hin. by apply elem_of_nil in Hin. }
  destruct (DeviceConnector.client dc) as [device|] eqn:Hc.
  2: { exists []. simpl. split; [apply Hnil|]. split; [|by rewrite Hc].
       intros c Hin. by apply elem_of_nil in Hin. }
  destruct (execute_connected_frame v commands_str os_type ask_confirmation
              dc device Hc) as (r & extra & -> & Hextra).
  exists extra. simpl. done.
Qed.

(** X6.  On a connected executor, a text that is empty or white space only
    gives no batch: the call returns the empty output with "No commands
    provided.", the validator is not asked and nothing is sent. *)
Theorem blank_text_is_no_batch (self : t) (dc : DeviceConnector.t)
        (device : DeviceConnector.remote) (commands_str os_type : string)
        (ask_confirmation : bool) :
  device_connector self = Some dc →
  DeviceConnector.client dc = Some device →
  Str.blank commands_str = true →
  execute_commands_on_device self commands_str os_type ask_confirmation
  = (Return (Some "", "No commands provided."), self).
Proof.
  intros Hdc Hc Hb. destruct self as [odc v]. simpl in Hdc. subst odc.
  unfold execute_commands_on_device. simpl. rewrite Hc.
  unfold execute_connected. by rewrite (blank_text_has_no_commands _ Hb).
Qed.

Lemma blank_text_is_no_batch_witness :
  Str.blank (Str.nl +:+ "   " +:+ Str.nl) = true ∧
  execute_commands_on_device (executor_on refusing_device)
    (Str.nl +:+ "   " +:+ Str.nl) "linux" true
  = (Return (Some "", "No commands provided."), executor_on refusing_device).
Proof.
  split; [reflexivity|].
  apply (blank_text_is_no_batch (executor_on refusing_device)
           (connector "test-device" (Some refusing_device) [])
           refusing_device (Str.nl +:+ "   " +:+ Str.nl) "linux" true);
    reflexivity.
Defined.

(** X7.  An accepted batch that does not enter configuration mode (the
    session is not cisco_ios, or no command needs the mode) is sent exactly
    as submitted, in order, with nothing before or after; the output is the
    transcript of the commands and their answers in that order, and the
    status is the success text. *)
Theorem plain_batch_sent_in_order (self : t) (dc : DeviceConnector.t)
        (device : DeviceConnector.remote) (commands_str os_type : string)
        (ask_confirmation : bool) :
  device_connector self = Some dc →
  DeviceConnector.client dc = Some device →
  commands_to_execute commands_str ≠ [] →
  (∀ cmd, cmd ∈ commands_to_execute commands_str →
          is_safe (command_validator self) cmd os_type = true) →
  (os_type ≠ "cisco_ios" ∨
   ∀ cmd, cmd ∈ commands_to_execute commands_str →
          needs_config_mode (command_validator self) cmd os_type = false) →
  (execute_commands_on_device self commands_str os_type ask_confirmation).1
  = Return (Some (transcript device (DeviceConnector.sent dc)
                             (commands_to_execute commands_str)),
            "Commands executed successfully.") ∧
  sent_by (execute_commands_on_device self commands_str os_type ask_confirmation).2
  = (sent_by self ++ commands_to_execute commands_str)%list.
Proof.
  intros Hdc Hc Hne Hsafe Hplain. destruct self as [odc v]. simpl in *. subst odc.
  unfold execute_commands_on_device, sent_by. simpl. rewrite Hc.
  by rewrite (plain_batch_run v commands_str os_type ask_confirmation dc device
                Hc Hne Hsafe Hplain).
Qed.

Lemma plain_batch_sent_in_order_witness :
  commands_to_execute ("ls -l" +:+ Str.nl +:+ "date") = ["ls -l"; "date"] ∧
  (execute_commands_on_device (executor_on silent_device)
     ("ls -l" +:+ Str.nl +:+ "date") "linux" false).1
  = Return (Some (transcript silent_device []
                    (commands_to_execute ("ls -l" +:+ Str.nl +:+ "date"))),
            "Commands executed successfully.") ∧
  sent_by (execute_commands_on_device (executor_on silent_device)
             ("ls -l" +:+ Str.nl +:+ "date") "linux" false).2
  = ([] ++ commands_to_execute ("ls -l" +:+ Str.nl +:+ "date"))%list.
Proof.
  split; [vm_compute; reflexivity|].
  apply (plain_batch_sent_in_order (executor_on silent_device)
           (connector "test-device" (Some silent_device) [])
           silent_device ("ls -l" +:+ Str.nl +:+ "date") "linux" false).
  - reflexivity.
  - reflexivity.
  - vm_compute. discriminate.
  - intros cmd Hin. apply list_elem_of_In in Hin. vm_compute in Hin.
    destruct Hin as [<-|[<-|[]]]; reflexivity.
  - left. discriminate.
Defined.

(** X8.  With the application's validator, on a session whose [os_type] is
    not a key of the pattern table, every non-empty batch passes validation
    and is sent as submitted, whatever its commands are. *)
Theorem unknown_dialect_batch_is_sent (dc : DeviceConnector.t)
        (device : DeviceConnector.remote) (commands_str os_type : string)
        (ask_confirmation : bool) :
  DeviceConnector.client dc = Some device →
  os_type ≠ "linux" → os_type ≠ "cisco_ios" → os_type ≠ "paloalto_panos" →
  commands_to_execute commands_str ≠ [] →
  (execute_commands_on_device (Make (Some dc) app_validator) commands_str os_type
     ask_confirmation).1
  = Return (Some (transcript device (DeviceConnector.sent dc)
                             (commands_to_execute commands_str)),
            "Commands executed successfully.") ∧
  sent_by (execute_commands_on_device (Make (Some dc) app_validator) commands_str
             os_type ask_confirmation).2
  = (DeviceConnector.sent dc ++ commands_to_execute commands_str)%list.
Proof.
  intros Hc H1 H2 H3 Hne.
  unfold execute_commands_on_device, sent_by. simpl. rewrite Hc.
  rewrite (plain_batch_run app_validator commands_str os_type ask_confirmation
             dc device Hc Hne); [done| |by left].
  intros cmd Hin. simpl. rewrite is_safe_eq.
  unfold CommandValidator.matches_destructive.
  rewrite (lookup_other_dialect os_type H1 H2 H3). simpl.
  apply batch_member in Hin as (line & _ & Hline & ->).
  destruct (Str.blank (Str.strip line)) eqn:Hb; [|done].
  apply strip_blank in Hb. rewrite strip_idem in Hb. done.
Qed.

Lemma unknown_dialect_batch_is_sent_witness :
  sent_by (execute_commands_on_device
             (Make (Some (connector "test-device" (Some silent_device) []))
                   app_validator)
             "rm -rf /" "Linux" true).2
  = ([] ++ commands_to_execute "rm -rf /")%list.
Proof.
  apply (unknown_dialect_batch_is_sent
           (connector "test-device" (Some silent_device) [])
           silent_device "rm -rf /" "Linux" true);
    [reflexivity|discriminate|discriminate|discriminate|].
  vm_compute. discriminate.
Defined.

End ExecutorMore.

(** ** More on the feedback parser *)
Section FeedbackParserMore.

Import FeedbackParser.

Lemma find_none_elem {A} (f : A → bool) (l : list A) :
  List.find f l = None → ∀ x, x ∈ l → f x = false.
Proof. intros H x Hx. apply (List.find_none f l H). by apply list_elem_of_In. Qed.

Lemma failure_error_line (msg key text line : string) :
  error_line (failure msg key text) = Some line →
  line ∈ Str.splitlines text ∧ Str.contains key (Str.lower line) = true.
Proof.
  unfold failure, first_line_with. simpl.
  intros [Hin Hk]%List.find_some. split; [by apply list_elem_of_In|done].
Qed.

(** X9.  A success verdict is always the same record: the message is the
    "no obvious errors" text, and there is no error line and no data.  An
    absent response is never a success. *)
Theorem success_is_one_record (command : string) (output : option string)
        (os_type : string) :
  success (parse_output command output os_type) = true →
  parse_output command output os_type = no_obvious_errors ∧ is_Some output.
Proof.
  destruct output as [text|]; [|discriminate]. unfold parse_output.
  intros H. split; [|eauto]. revert H.
  destruct (List.find _ generic_error_keywords); [discriminate|].
  unfold parse_linux, parse_cisco_ios, parse_paloalto_panos.
  repeat case_match; simpl; try discriminate; done.
Qed.

Lemma success_is_one_record_witness :
  success (parse_output "df -h" (Some "Filesystem Size Used") "linux") = true ∧
  parse_output "df -h" (Some "Filesystem Size Used") "linux" = no_obvious_errors.
Proof.
  split; [reflexivity|].
  apply (success_is_one_record "df -h" (Some "Filesystem Size Used") "linux").
  reflexivity.
Defined.

(** X10.  A success verdict means that the markers were looked for and not
    found: the lower-cased response holds no generic error keyword; on
    cisco_ios no Cisco error string; on paloalto_panos no CLI error string
    and no API error envelope; on linux it is not a ["useradd"] command
    answered with "already exists", and for an apt install command it holds
    no apt error keyword. *)
Theorem success_means_no_marker (command text os_type : string) :
  success (parse_output command (Some text) os_type) = true →
  (∀ err_key, err_key ∈ generic_error_keywords →
     Str.contains err_key (Str.lower text) = false) ∧
  (os_type = "cisco_ios" →
     ∀ pm, pm ∈ cisco_error_patterns →
           Str.contains (fst pm) (Str.lower text) = false) ∧
  (os_type = "paloalto_panos" →
     (∀ err_pattern, err_pattern ∈ panos_cli_errors →
        Str.contains err_pattern (Str.lower text) = false) ∧
     Str.contains panos_api_error_pattern (Str.lower text) = false) ∧
  (os_type = "linux" →
     Str.contains "useradd" command && Str.contains "already exists" (Str.lower text)
     = false ∧
     (Str.startswith "apt install" command || Str.startswith "apt-get install" command
      = true →
      ∀ keyword, keyword ∈ apt_error_keywords →
                 Str.contains keyword (Str.lower text) = false)).
Proof.
  unfold parse_output.
  destruct (List.find _ generic_error_keywords) eqn:Hg; [discriminate|].
  intros H. split; [apply (find_none_elem _ _ Hg)|].
  split; [|split].
  - intros ->. simpl in H. unfold parse_cisco_ios in H.
    destruct (List.find _ cisco_error_patterns) as [[p m]|] eqn:Hcis; [discriminate|].
    apply (find_none_elem _ _ Hcis).
  - intros ->. simpl in H. unfold parse_paloalto_panos in H.
    destruct (List.find _ panos_cli_errors) eqn:Hcli; [discriminate|].
    split; [apply (find_none_elem _ _ Hcli)|].
    by destruct (Str.contains panos_api_error_pattern _).
  - intros ->. simpl in H. unfold parse_linux in H.
    destruct (Str.contains "useradd" command && _) eqn:Huser.
    { destruct (_ || _); [destruct (List.find _ apt_error_keywords)|]; discriminate. }
    split; [done|]. intros Hapt. rewrite Hapt in H.
    destruct (List.find _ apt_error_keywords) eqn:Ha; [discriminate|].
    apply (find_none_elem _ _ Ha).
Qed.

Lemma success_means_no_marker_witness :
  success (parse_output "show version" (Some "Cisco IOS Software") "cisco_ios") = true ∧
  Str.contains "failed" (Str.lower "Cisco IOS Software") = false.
Proof.
  split; [reflexivity|].
  destruct (success_means_no_marker "show version" "Cisco IOS Software" "cisco_ios"
              eq_refl) as [Hgeneric _].
  apply Hgeneric. apply list_elem_of_In. simpl. tauto.
Defined.

(** X11.  An error line is only reported with a failure, and it is a line
    of the response. *)
Theorem error_line_is_a_line_of_a_failure (command text os_type line : string) :
  error_line (parse_output command (Some text) os_type) = Some line →
  success (parse_output command (Some text) os_type) = false ∧
  line ∈ Str.splitlines text.
Proof.
  unfold parse_output.
  destruct (List.find _ generic_error_keywords).
  { intros [? _]%failure_error_line. done. }
  unfold parse_linux, parse_cisco_ios, parse_paloalto_panos.
  repeat case_match; simpl; try discriminate;
    intros [? _]%failure_error_line; done.
Qed.

Lemma error_line_is_a_line_of_a_failure_witness :
  error_line (parse_output "sh" (Some ("Router#sh" +:+ Str.nl +:+ "% Ambiguous command"))
                           "cisco_ios") = Some "% Ambiguous command" ∧
  success (parse_output "sh" (Some ("Router#sh" +:+ Str.nl +:+ "% Ambiguous command"))
                        "cisco_ios") = false.
Proof.
  split; [reflexivity|].
  apply (error_line_is_a_line_of_a_failure "sh"
           ("Router#sh" +:+ Str.nl +:+ "% Ambiguous command") "cisco_ios"
           "% Ambiguous command").
  reflexivity.
Defined.

(** X12.  The generic keywords come first for every dialect: when the
    lower-cased response holds one of them, the verdict is a failure and the
    whole record is the same whatever the command and the [os_type]. *)
Theorem generic_keyword_decides (err_key text : string)
        (command1 command2 os_type1 os_type2 : string) :
  err_key ∈ generic_error_keywords →
  Str.contains err_key (Str.lower text) = true →
  success (parse_output command1 (Some text) os_type1) = false ∧
  parse_output command1 (Some text) os_type1 =
  parse_output command2 (Some text) os_type2.
Proof.
  intros Hin Hk. unfold parse_output.
  destruct (find_some_true (λ k, Str.contains k (Str.lower text)) _ err_key Hin Hk)
    as (k & -> & _). done.
Qed.

Lemma generic_keyword_decides_witness :
  success (parse_output "apt install x" (Some "Command FAILED") "linux") = false ∧
  parse_output "apt install x" (Some "Command FAILED") "linux" =
  parse_output "show version" (Some "Command FAILED") "paloalto_panos".
Proof.
  apply (generic_keyword_decides "failed" "Command FAILED").
  - apply list_elem_of_In. simpl. tauto.
  - reflexivity.
Defined.

(** X13.  ["unknown command"] is both a generic keyword and a PAN-OS CLI
    error string; the generic scan comes first, so no response is ever
    reported with the PAN-OS message for it. *)
Theorem panos_unknown_command_is_shadowed (command text os_type : string) :
  message (parse_output command (Some text) os_type)
  ≠ "PAN-OS command error: 'unknown command' found.".
Proof.
  unfold parse_output.
  destruct (List.find _ generic_error_keywords) eqn:Hg.
  { vm_compute. discriminate. }
  pose proof (find_none_elem _ _ Hg "unknown command") as Hunknown.
  unfold parse_linux, parse_cisco_ios, parse_paloalto_panos.
  assert (∀ pm, List.find (λ pm, Str.contains pm.1 (Str.lower text))
                          cisco_error_patterns = Some pm →
                pm.2 ≠ "PAN-OS command error: 'unknown command' found.") as Hcisco.
  { intros pm [Hin _]%List.find_some. simpl in Hin.
    destruct Hin as [<-|[<-|[]]]; discriminate. }
  destruct (List.find _ cisco_error_patterns) as [[p m]|] eqn:Hcis;
    [specialize (Hcisco _ eq_refl); simpl in Hcisco|clear Hcisco];
    (destruct (List.find _ panos_cli_errors) as [e|] eqn:He;
     [apply List.find_some in He as [Hin He]; simpl in Hin;
      destruct Hin as [<-|[<-|[]]];
      [|rewrite Hunknown in He; [discriminate|apply list_elem_of_In; simpl; tauto]]
     |]);
    repeat case_match; try done; vm_compute; discriminate.
Qed.

End FeedbackParserMore.

(** ** White-space splitting *)
Section SplitFacts.

Lemma snoc_not_empty (s : string) (c : ascii) : Str.snoc s c ≠ "".
Proof. by destruct s. Qed.

Lemma split_ws_go_nil (s : string) :
  ∀ cur, Str.split_ws_go cur s = [] ↔ cur = "" ∧ Str.blank s = true.
Proof.
  induction s as [|c s IH]; intros cur; simpl.
  - destruct (decide (cur = "")) as [->|Hne]; [done|].
    rewrite (proj2 (truthy_true cur) Hne). split; [done|by intros [? _]].
  - destruct (Str.isspace c); simpl.
    + destruct (decide (cur = "")) as [->|Hne]; simpl; [apply IH|].
      rewrite (proj2 (truthy_true cur) Hne). split; [done|by intros [? _]].
    + rewrite (IH (Str.snoc cur c)). split; [|by intros [_ ?]].
      intros [H _]. by destruct (snoc_not_empty cur c).
Qed.

Lemma split_ws_blank (s : string) : Str.blank s = true → Str.split_ws s = [].
Proof. intros Hb. by apply split_ws_go_nil. Qed.

Lemma split_ws_not_blank (s : string) :
  Str.blank s = false → is_Some (last (Str.split_ws s)).
Proof.
  intros Hb. destruct (Str.split_ws s) as [|x l] eqn:E.
  - apply split_ws_go_nil in E as [_ E]. congruence.
  - rewrite last_is_Some. done.
Qed.

(** The pieces [split()] returns are not empty and hold no white space. *)
Lemma split_ws_go_tokens (s : string) :
  ∀ cur tok,
    all_chars (λ c, negb (Str.isspace c)) cur = true →
    tok ∈ Str.split_ws_go cur s →
    tok ≠ "" ∧ all_chars (λ c, negb (Str.isspace c)) tok = true.
Proof.
  induction s as [|c s IH]; intros cur tok Hcur; simpl.
  - destruct (Str.truthy cur) eqn:Ht; [|by intros ?%elem_of_nil].
    intros ->%list_elem_of_singleton. by apply truthy_true in Ht.
  - destruct (Str.isspace c) eqn:Hc.
    + intros [Hin|Hin]%elem_of_app; [|by apply (IH "")].
      destruct (Str.truthy cur) eqn:Ht; [|by apply elem_of_nil in Hin].
      apply list_elem_of_singleton in Hin as ->. by apply truthy_true in Ht.
    + apply IH. by rewrite all_chars_snoc, Hcur, Hc.
Qed.

Lemma split_ws_tokens (s tok : string) :
  tok ∈ Str.split_ws s →
  tok ≠ "" ∧ all_chars (λ c, negb (Str.isspace c)) tok = true.
Proof. by apply split_ws_go_tokens. Qed.

End SplitFacts.

(** ** More on the interface parsers *)
Section ParserMore.

Import ContextBuilder.

Lemma nth_in_range (l : list string) (i : nat) :
  (i < length l)%nat → l !! i = Some (nth i l "").
Proof.
  intros Hi. destruct (lookup_lt_is_Some_2 l i Hi) as [x Hx].
  by rewrite (nth_lookup_Some _ _ _ _ Hx).
Qed.

Lemma add_row_sound (L : list string) (interfaces : gmap string Cisco.iface)
      (line : string) :
  (∀ name v, interfaces !! name = Some v → ∃ l, l ∈ L ∧ cisco_row l name v) →
  line ∈ L →
  ∀ name v, Cisco.add_row interfaces line !! name = Some v →
            ∃ l, l ∈ L ∧ cisco_row l name v.
Proof.
  intros Hinv Hin name v. unfold Cisco.add_row.
  destruct (Cisco.is_row (Str.split_ws line)) eqn:Hrow; [|apply Hinv].
  apply andb_true_iff in Hrow as [Hlen Hname].
  apply Nat.leb_le in Hlen. apply negb_true_iff in Hname.
  destruct (decide (name = nth 0 (Str.split_ws line) "")) as [->|Hne].
  - rewrite lookup_insert_eq. intros [= <-]. exists line. split; [done|].
    exists (Str.split_ws line), (nth 1 (Str.split_ws line) "").
    split; [done|]. split; [done|].
    split; [apply nth_in_range; lia|]. split; [done|].
    split; [apply nth_in_range; lia|]. split; [done|].
    split; apply nth_in_range; lia.
  - rewrite lookup_insert_ne by done. apply Hinv.
Qed.

Lemma fold_add_row_sound (L lines : list string) :
  ∀ interfaces,
    (∀ name v, interfaces !! name = Some v → ∃ l, l ∈ L ∧ cisco_row l name v) →
    (∀ l, l ∈ lines → l ∈ L) →
    ∀ name v, fold_left Cisco.add_row lines interfaces !! name = Some v →
              ∃ l, l ∈ L ∧ cisco_row l name v.
Proof.
  induction lines as [|line lines IH]; intros interfaces Hinv Hsub; [done|].
  simpl. apply IH.
  - apply add_row_sound; [done|]. apply Hsub. by left.
  - intros l Hl. apply Hsub. by right.
Qed.

(** X14.  Every record the Cisco interface parser returns comes from a
    data row of the table: a line of at least six white-space separated
    columns whose first column is the key and does not contain
    ["Interface"]; the status is the second-to-last column and the protocol
    the last one; the address is the second column, or absent when that
    column is ["unassigned"].  Key, status and protocol are never empty and
    the address is never ["unassigned"]. *)
Theorem cisco_interfaces_come_from_rows (dc : DeviceConnector.t) (name : string)
        (v : Cisco.iface) :
  (_parse_cisco_interfaces dc).1 !! name = Some v →
  (∃ text line,
     (DeviceConnector.execute_command dc "show ip interface brief").1 = Some text ∧
     line ∈ Str.splitlines text ∧ cisco_row line name v) ∧
  name ≠ "" ∧ Cisco.status v ≠ "" ∧ Cisco.protocol v ≠ "" ∧
  Cisco.ip_address v ≠ Some "unassigned" ∧ Cisco.ip_address v ≠ Some "".
Proof.
  unfold _parse_cisco_interfaces.
  destruct (DeviceConnector.execute_command dc "show ip interface brief")
    as [output dc']. simpl. unfold Cisco.parse_cisco_interfaces_of.
  destruct output as [text|]; [|by rewrite lookup_empty].
  destruct (Str.truthy text); [|by rewrite lookup_empty].
  intros Hlook.
  destruct (fold_add_row_sound (Str.splitlines text) (Str.splitlines text) ∅)
    with (name := name) (v := v) as (line & Hin & Hrow); [|done|done|].
  { intros n w H. by rewrite lookup_empty in H. }
  split; [by exists text, line|].
  destruct Hrow as (parts & ip & -> & Hlen & H0 & _ & H1 & Hip & Hst & Hpr).
  assert (∀ i tok, Str.split_ws line !! i = Some tok → tok ≠ "") as Htok.
  { intros i tok Hi. by apply (split_ws_tokens line), list_elem_of_lookup_2 with i. }
  split; [by apply (Htok _ _ H0)|]. split; [by apply (Htok _ _ Hst)|].
  split; [by apply (Htok _ _ Hpr)|].
  rewrite Hip. case_bool_decide as Hu; [|done].
  split; [congruence|]. intros [= ->]. by apply (Htok _ _ H1).
Qed.

(** The device of the table row quoted in the specification. *)
Lemma cisco_interfaces_come_from_rows_witness :
  (_parse_cisco_interfaces
     (DeviceConnector.Make "r1"
        (Some (λ _ _, "GigabitEthernet0/1   unassigned   YES unset  administratively down down"))
        [])).1 !! "GigabitEthernet0/1"
  = Some (Cisco.Iface None "down" "down") ∧
  Cisco.status (Cisco.Iface None "down" "down") ≠ "".
Proof.
  split; [vm_compute; reflexivity|].
  apply (cisco_interfaces_come_from_rows
           (DeviceConnector.Make "r1"
              (Some (λ _ _, "GigabitEthernet0/1   unassigned   YES unset  administratively down down"))
              [])
           "GigabitEthernet0/1" (Cisco.Iface None "down" "down")).
  vm_compute. reflexivity.
Defined.

Lemma step_addresses_sound (L : list string) (st : loop_state) (line : string) :
  addresses_sound L st.1 → line ∈ L → addresses_sound L (step st line).1.
Proof.
  destruct st as [interfaces current]. simpl. intros Hinv Hin.
  destruct (is_header line) eqn:Hhead.
  - unfold open_interface.
    destruct (Str.splitn ":" 2 line !! 1%nat) as [name_part|]; [|done].
    case_bool_decide; [done|].
    destruct (_ ≫= link_status) as [st|]; simpl; intros name v ip Hlook Hip.
    + destruct (decide (name = Str.strip name_part)) as [->|Hne].
      * rewrite lookup_insert_eq in Hlook. by injection Hlook as <-.
      * rewrite !lookup_insert_ne in Hlook by done. by apply (Hinv name v).
    + destruct (decide (name = Str.strip name_part)) as [->|Hne].
      * rewrite lookup_insert_eq in Hlook. by injection Hlook as <-.
      * rewrite lookup_insert_ne in Hlook by done. by apply (Hinv name v).
  - destruct current as [cur|]; [|done].
    destruct (Str.truthy cur && _) eqn:Hinet; [|done].
    apply andb_true_iff in Hinet as [_ Hinet]. simpl. unfold add_address.
    destruct (Str.split_ws (Str.strip line) !! 1%nat) as [new_ip|] eqn:Hparts;
      [|done].
    intros name v ip Hlook Hip. rewrite lookup_alter in Hlook.
    case_decide as Hk; [|by apply (Hinv name v)].
    subst name. destruct (interfaces !! cur) as [w|] eqn:Hw; [|done].
    injection Hlook as <-. unfold set_ip_once in Hip.
    destruct (ip_address w) as [old|] eqn:Hold.
    + apply (Hinv cur w); [done|congruence].
    + simpl in Hip. injection Hip as <-. by exists line.
Qed.

Lemma fold_addresses_sound (L lines : list string) (st : loop_state) :
  addresses_sound L st.1 → (∀ line, line ∈ lines → line ∈ L) →
  addresses_sound L (fold_left step lines st).1.
Proof.
  revert st. induction lines as [|line lines IH]; intros st Hinv Hsub; [done|].
  simpl. apply IH.
  - apply step_addresses_sound; [done|]. apply Hsub. by left.
  - intros l Hl. apply Hsub. by right.
Qed.

(** X15.  An address in the mapping returned by the Linux interface parser
    is the second white-space separated piece of a line of the response
    that is not a header line and starts, once stripped, with ["inet "]; it
    is not empty and holds no white space. *)
Theorem linux_addresses_come_from_inet_lines (dc : DeviceConnector.t)
        (name : string) (v : iface) (ip : string) :
  (_parse_linux_interfaces dc).1 !! name = Some v →
  ip_address v = Some ip →
  (∃ text line,
     (DeviceConnector.execute_command dc "ip addr").1 = Some text ∧
     line ∈ Str.splitlines text ∧ inet_line line ip) ∧
  ip ≠ "" ∧ all_chars (λ c, negb (Str.isspace c)) ip = true.
Proof.
  unfold _parse_linux_interfaces.
  destruct (DeviceConnector.execute_command dc "ip addr") as [output dc'].
  simpl. unfold parse_linux_interfaces_of.
  intros [Hlook _]%map_lookup_filter_Some Hip.
  destruct output as [text|]; [|by rewrite lookup_empty in Hlook].
  destruct (Str.truthy text); [|by rewrite lookup_empty in Hlook].
  destruct (fold_addresses_sound (Str.splitlines text) (Str.splitlines text) (∅, None))
    with (name := name) (v := v) (ip := ip) as (line & Hin & Hline); [|done|done|done|].
  { intros n w i H. simpl in H. by rewrite lookup_empty in H. }
  split; [by exists text, line|].
  destruct Hline as (_ & _ & Hparts).
  by apply (split_ws_tokens (Str.strip line)), list_elem_of_lookup_2 with 1%nat.
Qed.

Lemma linux_addresses_come_from_inet_lines_witness :
  (_parse_linux_interfaces linux_host).1 !! "eth0"
  = Some (Iface (Some "UP") (Some "192.168.1.100/24")) ∧
  "192.168.1.100/24" ≠ "".
Proof.
  split; [vm_compute; reflexivity|].
  apply (linux_addresses_come_from_inet_lines linux_host "eth0"
           (Iface (Some "UP") (Some "192.168.1.100/24")) "192.168.1.100/24").
  - vm_compute. reflexivity.
  - reflexivity.
Defined.

(** X16.  All along the loop of the Linux interface parser, the current
    interface name, when set, is a key of [interfaces]: the lookup
    [interfaces[current_interface_name]] of the address branch never raises
    [KeyError], whatever the lines are. *)
Theorem current_interface_is_always_a_key (lines : list string) :
  current_known (fold_left step lines (∅, None)).
Proof.
  assert (current_known (∅, None)) as H0 by (by intros ?).
  revert H0. generalize ((∅, None) : loop_state).
  induction lines as [|line lines IH]; intros st Hst; [done|].
  simpl. apply IH. by apply step_current_known.
Qed.

End ParserMore.

(** ** The context builder *)
Section GatherFacts.

Import ContextBuilder.

Abbreviation connector := DeviceConnector.Make.

Lemma split_go_not_nil (sep : string) (s : string) :
  ∀ fuel skip cur, Str.split_go sep fuel skip cur s ≠ [].
Proof.
  induction s as [|c s IH]; intros fuel skip cur; simpl; [done|].
  destruct skip; [|apply IH]. destruct (_ && _); [done|apply IH].
Qed.

Lemma split_last (sep s : string) : is_Some (last (Str.split sep s)).
Proof.
  rewrite last_is_Some. apply split_go_not_nil.
Qed.

(** The Linux gatherer on a connected builder. *)
Lemma gather_linux_connected (h : string) (device : DeviceConnector.remote)
      (sent : list string) (ctx : device_context) (os : string) :
  Str.lower os = "linux" →
  gather_context (Builder (Some (connector h (Some device) sent)) ctx) os =
  (Some (Context (Some "linux")
           (Some (Str.strip (device sent "hostname")))
           (Some (Str.strip (device (sent ++ ["hostname"])%list os_release_command)))
           (Some (LinuxInterfaces
                    (parse_linux_interfaces_of
                       (Some (device ((sent ++ ["hostname"]) ++ [os_release_command])%list
                                     "ip addr")))))),
   Builder (Some (connector h (Some device) (sent ++ linux_script)%list))
     (Context (Some "linux")
        (Some (Str.strip (device sent "hostname")))
        (Some (Str.strip (device (sent ++ ["hostname"])%list os_release_command)))
        (Some (LinuxInterfaces
                 (parse_linux_interfaces_of
                    (Some (device ((sent ++ ["hostname"]) ++ [os_release_command])%list
                                  "ip addr"))))))).
Proof.
  intros Hos. unfold gather_context. simpl. rewrite Hos. simpl.
  unfold guarded, _gather_linux_context, bind, call, text, with_connector,
    set_os_type, set_hostname, set_os_version, set_interfaces, ret,
    _parse_linux_interfaces, DeviceConnector.execute_command. simpl.
  unfold linux_script. by rewrite <- !app_assoc.
Qed.

(** The PAN-OS gatherer on a connected builder. *)
Lemma gather_panos_connected (h : string) (device : DeviceConnector.remote)
      (sent : list string) (ctx : device_context) (os : string) :
  Str.lower os = "paloalto_panos" →
  gather_context (Builder (Some (connector h (Some device) sent)) ctx) os =
  (Some (Context (Some "paloalto_panos")
           (Some (Str.strip (default "" (last (Str.split ":"
              (device sent "show system info | match hostname"))))))
           (Some (Str.strip (default "" (last (Str.split ":"
              (device (sent ++ ["show system info | match hostname"])%list
                      "show system info | match sw-version"))))))
           (interfaces ctx)),
   Builder (Some (connector h (Some device) (sent ++ panos_script)%list))
     (Context (Some "paloalto_panos")
        (Some (Str.strip (default "" (last (Str.split ":"
           (device sent "show system info | match hostname"))))))
        (Some (Str.strip (default "" (last (Str.split ":"
           (device (sent ++ ["show system info | match hostname"])%list
                   "show system info | match sw-version"))))))
        (interfaces ctx))).
Proof.
  intros Hos. unfold gather_context. simpl. rewrite Hos. simpl.
  unfold guarded, _gather_paloalto_panos_context, bind, call, text, last_item,
    set_os_type, set_hostname, set_os_version, ret,
    DeviceConnector.execute_command. simpl.
  destruct (split_last ":" (device sent "show system info | match hostname"))
    as [v1 ->].
  simpl.
  destruct (split_last ":"
              (device (sent ++ ["show system info | match hostname"])%list
                      "show system info | match sw-version")) as [v2 ->].
  simpl. unfold panos_script. by rewrite <- !app_assoc.
Qed.

Local Arguments set_cisco_version : simpl never.

Lemma set_cisco_version_eq (version_output : string) (self : t) :
  set_cisco_version (Some version_output) self =
  (Some tt,
   Builder (device_connector self)
     (Context (os_type (context self)) (hostname (context self))
        (version_after (os_version (context self)) version_output)
        (interfaces (context self)))).
Proof.
  unfold set_cisco_version, version_after, set_os_version, ret.
  destruct self as [odc [a b c d]]. simpl.
  destruct (Str.truthy version_output); [|done].
  by destruct (2 <? _)%nat.
Qed.

(** The Cisco gatherer on a connected builder, when the answer to the
    host name command is empty or white space only. *)
Lemma gather_cisco_blank (h : string) (device : DeviceConnector.remote)
      (sent : list string) (ctx : device_context) (os : string) :
  Str.lower os = "cisco_ios" →
  Str.blank (device (sent ++ ["terminal length 0"])%list
                    "show running-config | include hostname") = true →
  gather_context (Builder (Some (connector h (Some device) sent)) ctx) os =
  (None,
   Builder (Some (connector h (Some device)
                    (sent ++ ["terminal length 0";
                              "show running-config | include hostname"])%list))
     (Context (Some "cisco_ios") (hostname ctx) (os_version ctx) (interfaces ctx))).
Proof.
  intros Hos Hb. unfold gather_context. simpl.
  rewrite Hos. simpl.
  unfold guarded, _gather_cisco_ios_context, bind at 1 2 3 4 5.
  unfold call, text, last_item, set_os_type, ret,
    DeviceConnector.execute_command. simpl.
  rewrite (split_ws_blank _ Hb). simpl. unfold raise.
  by rewrite <- !app_assoc.
Qed.

(** The Cisco gatherer on a connected builder, when that answer holds a
    word. *)
Lemma gather_cisco_named (h : string) (device : DeviceConnector.remote)
      (sent : list string) (ctx : device_context) (os : string) :
  Str.lower os = "cisco_ios" →
  Str.blank (device (sent ++ ["terminal length 0"])%list
                    "show running-config | include hostname") = false →
  gather_context (Builder (Some (connector h (Some device) sent)) ctx) os =
  (Some (Context (Some "cisco_ios")
           (last (Str.split_ws
                    (device (sent ++ ["terminal length 0"])%list
                            "show running-config | include hostname")))
           (version_after (os_version ctx)
              (device (sent ++ ["terminal length 0";
                                "show running-config | include hostname"])%list
                      "show version | include Cisco IOS Software"))
           (Some (CiscoInterfaces
                    (Cisco.parse_cisco_interfaces_of
                       (Some (device
                                (sent ++ ["terminal length 0";
                                          "show running-config | include hostname";
                                          "show version | include Cisco IOS Software"])%list
                                "show ip interface brief")))))),
   Builder (Some (connector h (Some device) (sent ++ cisco_script)%list))
     (Context (Some "cisco_ios")
        (last (Str.split_ws
                 (device (sent ++ ["terminal length 0"])%list
                         "show running-config | include hostname")))
        (version_after (os_version ctx)
           (device (sent ++ ["terminal length 0";
                             "show running-config | include hostname"])%list
                   "show version | include Cisco IOS Software"))
        (Some (CiscoInterfaces
                 (Cisco.parse_cisco_interfaces_of
                    (Some (device
                             (sent ++ ["terminal length 0";
                                       "show running-config | include hostname";
                                       "show version | include Cisco IOS Software"])%list
                             "show ip interface brief"))))))).
Proof.
  intros Hos Hb. unfold gather_context. simpl.
  rewrite Hos. simpl.
  destruct (split_ws_not_blank _ Hb) as [name Hname].
  unfold guarded, _gather_cisco_ios_context, bind at 1 2 3 4 5 6 7.
  unfold call at 1 2 3. unfold text, last_item, set_os_type, set_hostname, ret,
    DeviceConnector.execute_command. simpl.
  rewrite Hname. simpl. unfold bind at 1. rewrite set_cisco_version_eq. simpl.
  unfold bind, with_connector, _parse_cisco_interfaces, set_interfaces, call,
    DeviceConnector.execute_command. simpl.
  unfold cisco_script. by rewrite <- !app_assoc.
Qed.

Lemma connected_builder (self : t) (dc : DeviceConnector.t)
      (device : DeviceConnector.remote) :
  device_connector self = Some dc →
  DeviceConnector.client dc = Some device →
  self = Builder (Some (connector (DeviceConnector.hostname dc) (Some device)
                                  (DeviceConnector.sent dc)))
                 (context self).
Proof.
  destruct self as [odc ctx], dc as [h c s]. simpl. by intros -> ->.
Qed.

(** X17.  On a connected builder the Linux gatherer never fails: it sends
    ["hostname"], the os-release command and ["ip addr"], in that order and
    nothing else, and returns the context it leaves in the builder, with
    all four keys set from the three answers (host name and version
    stripped). *)
Theorem linux_gather_fills_context (self : t) (dc : DeviceConnector.t)
        (device : DeviceConnector.remote) (os : string) :
  device_connector self = Some dc →
  DeviceConnector.client dc = Some device →
  Str.lower os = "linux" →
  ∃ c,
    (gather_context self os).1 = Some c ∧
    context (gather_context self os).2 = c ∧
    builder_sent (gather_context self os).2
    = (DeviceConnector.sent dc ++ linux_script)%list ∧
    os_type c = Some "linux" ∧
    hostname c = Some (Str.strip (device (DeviceConnector.sent dc) "hostname")) ∧
    os_version c
    = Some (Str.strip (device (DeviceConnector.sent dc ++ ["hostname"])%list
                              os_release_command)) ∧
    interfaces c
    = Some (LinuxInterfaces
              (parse_linux_interfaces_of
                 (Some (device (DeviceConnector.sent dc
                                  ++ ["hostname"; os_release_command])%list
                               "ip addr")))).
Proof.
  intros Hdc Hc Hos. rewrite (connected_builder self dc device Hdc Hc).
  rewrite (gather_linux_connected _ _ _ _ _ Hos). eexists. simpl.
  repeat (split; [reflexivity|]). by rewrite <- app_assoc.
Qed.

Lemma linux_gather_fills_context_witness :
  ∃ c,
    (gather_context (Builder (Some linux_host) (Context None None None None))
                    "Linux").1 = Some c ∧
    os_type c = Some "linux" ∧
    builder_sent (gather_context (Builder (Some linux_host)
                                          (Context None None None None)) "Linux").2
    = ([] ++ linux_script)%list.
Proof.
  destruct (linux_gather_fills_context
              (Builder (Some linux_host) (Context None None None None))
              linux_host (λ _ _, ip_addr_text) "Linux" eq_refl eq_refl eq_refl)
    as (c & H1 & _ & H3 & H4 & _).
  exists c. split; [exact H1|]. split; [exact H4|exact H3].
Defined.

(** X18.  On a connected builder, when the answer to the host name command
    of the Cisco gatherer is empty or white space only, [gather_context]
    returns [None] after two commands: ["terminal no length"] is not sent,
    and the context keeps ['os_type'] set to ["cisco_ios"] with its other
    keys as before. *)
Theorem cisco_gather_stops_without_hostname (self : t) (dc : DeviceConnector.t)
        (device : DeviceConnector.remote) (os : string) :
  device_connector self = Some dc →
  DeviceConnector.client dc = Some device →
  Str.lower os = "cisco_ios" →
  Str.blank (cisco_hostname_answer device (DeviceConnector.sent dc)) = true →
  (gather_context self os).1 = None ∧
  builder_sent (gather_context self os).2
  = (DeviceConnector.sent dc
       ++ ["terminal length 0"; "show running-config | include hostname"])%list ∧
  context (gather_context self os).2
  = Context (Some "cisco_ios") (hostname (context self))
            (os_version (context self)) (interfaces (context self)).
Proof.
  intros Hdc Hc Hos Hb. rewrite (connected_builder self dc device Hdc Hc).
  by rewrite (gather_cisco_blank _ _ _ _ _ Hos Hb).
Qed.

Lemma cisco_gather_stops_without_hostname_witness :
  (gather_context
     (Builder (Some (connector "r1" (Some silent_device) []))
              (Context None None None None)) "cisco_ios").1 = None ∧
  builder_sent
    (gather_context
       (Builder (Some (connector "r1" (Some silent_device) []))
                (Context None None None None)) "cisco_ios").2
  = ([] ++ ["terminal length 0"; "show running-config | include hostname"])%list ∧
  context
    (gather_context
       (Builder (Some (connector "r1" (Some silent_device) []))
                (Context None None None None)) "cisco_ios").2
  = Context (Some "cisco_ios") None None None.
Proof.
  apply (cisco_gather_stops_without_hostname
           (Builder (Some (connector "r1" (Some silent_device) []))
                    (Context None None None None))
           (connector "r1" (Some silent_device) []) silent_device "cisco_ios");
    reflexivity.
Defined.

(** X19.  On a connected builder, when that answer holds a word, the Cisco
    gatherer succeeds: it sends its five commands in order, from
    ["terminal length 0"] to ["terminal no length"], and returns a context
    whose host name is the last word of the answer, whose interfaces are
    the parsed table, and whose version is either taken from the version
    answer (when that answer has more than two comma-separated parts) or
    left as it was. *)
Theorem cisco_gather_runs_whole_script (self : t) (dc : DeviceConnector.t)
        (device : DeviceConnector.remote) (os : string) :
  device_connector self = Some dc →
  DeviceConnector.client dc = Some device →
  Str.lower os = "cisco_ios" →
  Str.blank (cisco_hostname_answer device (DeviceConnector.sent dc)) = false →
  ∃ c name,
    (gather_context self os).1 = Some c ∧
    context (gather_context self os).2 = c ∧
    builder_sent (gather_context self os).2
    = (DeviceConnector.sent dc ++ cisco_script)%list ∧
    os_type c = Some "cisco_ios" ∧
    hostname c = Some name ∧
    last (Str.split_ws (cisco_hostname_answer device (DeviceConnector.sent dc)))
    = Some name ∧
    os_version c
    = version_after (os_version (context self))
        (device (DeviceConnector.sent dc
                   ++ ["terminal length 0";
                       "show running-config | include hostname"])%list
                "show version | include Cisco IOS Software") ∧
    interfaces c
    = Some (CiscoInterfaces
              (Cisco.parse_cisco_interfaces_of
                 (Some (device (DeviceConnector.sent dc
                                  ++ ["terminal length 0";
                                      "show running-config | include hostname";
                                      "show version | include Cisco IOS Software"])%list
                               "show ip interface brief")))).
Proof.
  intros Hdc Hc Hos Hb. rewrite (connected_builder self dc device Hdc Hc).
  unfold cisco_hostname_answer in Hb |- *.
  rewrite (gather_cisco_named _ _ _ _ _ Hos Hb).
  destruct (split_ws_not_blank _ Hb) as [name Hname].
  eexists. exists name. simpl. rewrite Hname.
  repeat (split; [reflexivity|]). reflexivity.
Qed.

Lemma cisco_gather_runs_whole_script_witness :
  ∃ c name,
    (gather_context
       (Builder (Some (connector "r1" (Some (λ _ _, "hostname Router1")) []))
                (Context None None None None)) "cisco_ios").1 = Some c ∧
    hostname c = Some name ∧ name = "Router1".
Proof.
  destruct (cisco_gather_runs_whole_script
              (Builder (Some (connector "r1" (Some (λ _ _, "hostname Router1")) []))
                       (Context None None None None))
              (connector "r1" (Some (λ _ _, "hostname Router1")) [])
              (λ _ _, "hostname Router1") "cisco_ios"
              eq_refl eq_refl eq_refl eq_refl)
    as (c & name & H1 & _ & _ & _ & H5 & H6 & _).
  exists c, name. split; [exact H1|]. split; [exact H5|].
  vm_compute in H6. by injection H6 as <-.
Defined.

(** X20.  On a connected builder the PAN-OS gatherer never fails: it sends
    its two commands in order, sets the host name and the version to the
    stripped text after the last colon of each answer, and leaves the
    ['interfaces'] key as it was. *)
Theorem panos_gather_fills_context (self : t) (dc : DeviceConnector.t)
        (device : DeviceConnector.remote) (os : string) :
  device_connector self = Some dc →
  DeviceConnector.client dc = Some device →
  Str.lower os = "paloalto_panos" →
  ∃ c value1 value2,
    (gather_context self os).1 = Some c ∧
    context (gather_context self os).2 = c ∧
    builder_sent (gather_context self os).2
    = (DeviceConnector.sent dc ++ panos_script)%list ∧
    last (Str.split ":" (device (DeviceConnector.sent dc)
                                "show system info | match hostname")) = Some value1 ∧
    last (Str.split ":"
            (device (DeviceConnector.sent dc
                       ++ ["show system info | match hostname"])%list
                    "show system info | match sw-version")) = Some value2 ∧
    c = Context (Some "paloalto_panos") (Some (Str.strip value1))
                (Some (Str.strip value2)) (interfaces (context self)).
Proof.
  intros Hdc Hc Hos. rewrite (connected_builder self dc device Hdc Hc).
  rewrite (gather_panos_connected _ _ _ _ _ Hos). simpl.
  destruct (split_last ":" (device (DeviceConnector.sent dc)
                                   "show system info | match hostname"))
    as [v1 Hv1].
  destruct (split_last ":"
              (device (DeviceConnector.sent dc
                         ++ ["show system info | match hostname"])%list
                      "show system info | match sw-version")) as [v2 Hv2].
  eexists. exists v1, v2. rewrite Hv1, Hv2. simpl.
  repeat (split; [reflexivity|]). reflexivity.
Qed.

Lemma panos_gather_fills_context_witness :
  ∃ c value1 value2,
    (gather_context
       (Builder (Some (connector "fw" (Some (λ _ _, "hostname: PA-VM-1")) []))
                (Context None None None None)) "paloalto_panos").1 = Some c ∧
    hostname c = Some (Str.strip value1) ∧ Str.strip value1 = "PA-VM-1" ∧
    os_version c = Some (Str.strip value2).
Proof.
  destruct (panos_gather_fills_context
              (Builder (Some (connector "fw" (Some (λ _ _, "hostname: PA-VM-1")) []))
                       (Context None None None None))
              (connector "fw" (Some (λ _ _, "hostname: PA-VM-1")) [])
              (λ _ _, "hostname: PA-VM-1") "paloalto_panos"
              eq_refl eq_refl eq_refl)
    as (c & v1 & v2 & H1 & _ & _ & H4 & _ & Hc).
  exists c, v1, v2. split; [exact H1|]. rewrite Hc. split; [reflexivity|].
  split; [|reflexivity]. vm_compute in H4. by injection H4 as <-.
Defined.

Lemma gather_unsupported (self : t) (os : string) :
  Str.lower os ≠ "linux" → Str.lower os ≠ "cisco_ios" →
  Str.lower os ≠ "paloalto_panos" →
  gather_context self os = (None, self).
Proof.
  intros H1 H2 H3. unfold gather_context.
  destruct (device_connector self) as [dc|]; [|done].
  destruct (DeviceConnector.client dc); [|done].
  by rewrite !bool_decide_eq_false_2.
Qed.

(** X21.  On a connected builder [gather_context] returns [None] in two
    cases only: the lower-cased [os_type] is none of ["linux"],
    ["cisco_ios"], ["paloalto_panos"]; or it is ["cisco_ios"] and the
    answer to the host name command is empty or white space only. *)
Theorem gather_fails_exactly_when (self : t) (dc : DeviceConnector.t)
        (device : DeviceConnector.remote) (os : string) :
  device_connector self = Some dc →
  DeviceConnector.client dc = Some device →
  (gather_context self os).1 = None ↔
  (Str.lower os ≠ "linux" ∧ Str.lower os ≠ "cisco_ios" ∧
   Str.lower os ≠ "paloalto_panos") ∨
  (Str.lower os = "cisco_ios" ∧
   Str.blank (cisco_hostname_answer device (DeviceConnector.sent dc)) = true).
Proof.
  intros Hdc Hc. rewrite (connected_builder self dc device Hdc Hc).
  destruct (decide (Str.lower os = "linux")) as [Hl|Hl].
  { rewrite (gather_linux_connected _ _ _ _ _ Hl). simpl. rewrite Hl.
    split; [done|]. intros [(? & _)|(? & _)]; done. }
  destruct (decide (Str.lower os = "paloalto_panos")) as [Hp|Hp].
  { rewrite (gather_panos_connected _ _ _ _ _ Hp). simpl. rewrite Hp.
    split; [done|]. intros [(_ & _ & ?)|(? & _)]; done. }
  destruct (decide (Str.lower os = "cisco_ios")) as [Hi|Hi].
  - destruct (Str.blank (cisco_hostname_answer device (DeviceConnector.sent dc)))
      eqn:Hb.
    + rewrite (gather_cisco_blank _ _ _ _ _ Hi Hb). simpl. split; [|done].
      intros _. by right.
    + rewrite (gather_cisco_named _ _ _ _ _ Hi Hb). simpl.
      split; [done|]. intros [(_ & ? & _)|(_ & ?)]; done.
  - rewrite (gather_unsupported _ os Hl Hi Hp). simpl. split; [|done].
    intros _. by left.
Qed.

Lemma version_after_twice (old : option string) (version_output : string) :
  version_after (version_after old version_output) version_output
  = version_after old version_output.
Proof. unfold version_after. by destruct (_ && _). Qed.

(** X22.  Gathering twice from a device whose answers do not depend on
    what it received before gives the same result and leaves the same
    context as gathering once, for every [os_type]. *)
Theorem gather_twice_same_context (self : t) (dc : DeviceConnector.t)
        (device : DeviceConnector.remote) (os : string) :
  device_connector self = Some dc →
  DeviceConnector.client dc = Some device →
  stateless device →
  (gather_context (gather_context self os).2 os).1 = (gather_context self os).1 ∧
  context (gather_context (gather_context self os).2 os).2
  = context (gather_context self os).2.
Proof.
  intros Hdc Hc Hst. rewrite (connected_builder self dc device Hdc Hc).
  set (answer := device []).
  assert (∀ sent command, device sent command = answer command) as Hd
    by (intros; apply Hst).
  clearbody answer.
  destruct (decide (Str.lower os = "linux")) as [Hl|Hl].
  { rewrite (gather_linux_connected _ _ _ _ _ Hl). simpl.
    rewrite (gather_linux_connected _ _ _ _ _ Hl). simpl.
    by rewrite !Hd. }
  destruct (decide (Str.lower os = "paloalto_panos")) as [Hp|Hp].
  { rewrite (gather_panos_connected _ _ _ _ _ Hp). simpl.
    rewrite (gather_panos_connected _ _ _ _ _ Hp). simpl.
    by rewrite !Hd. }
  destruct (decide (Str.lower os = "cisco_ios")) as [Hi|Hi].
  - destruct (Str.blank (answer "show running-config | include hostname")) eqn:Hb.
    + rewrite (gather_cisco_blank _ _ _ _ _ Hi) by (by rewrite Hd). simpl.
      by rewrite (gather_cisco_blank _ _ _ _ _ Hi) by (by rewrite Hd).
    + rewrite (gather_cisco_named _ _ _ _ _ Hi) by (by rewrite Hd). simpl.
      rewrite (gather_cisco_named _ _ _ _ _ Hi) by (by rewrite Hd). simpl.
      by rewrite !Hd, version_after_twice.
  - rewrite (gather_unsupported _ os Hl Hi Hp). simpl.
    by rewrite (gather_unsupported _ os Hl Hi Hp).
Qed.

Lemma gather_twice_same_context_witness :
  stateless (λ _ _, "hostname Router1") ∧
  (gather_context
     (gather_context
        (Builder (Some (connector "r1" (Some (λ _ _, "hostname Router1")) []))
                 (Context None None None None)) "cisco_ios").2 "cisco_ios").1
  = (gather_context
       (Builder (Some (connector "r1" (Some (λ _ _, "hostname Router1")) []))
                (Context None None None None)) "cisco_ios").1.
Proof.
  split; [by intros ???|].
  apply (gather_twice_same_context
           (Builder (Some (connector "r1" (Some (λ _ _, "hostname Router1")) []))
                    (Context None None None None))
           (connector "r1" (Some (λ _ _, "hostname Router1")) [])
           (λ _ _, "hostname Router1") "cisco_ios"); [reflexivity|reflexivity|].
  by intros ???.
Defined.

Lemma gather_fails_exactly_when_witness :
  (gather_context
     (Builder (Some (connector "r1" (Some silent_device) []))
              (Context None None None None)) "windows").1 = None.
Proof.
  apply (gather_fails_exactly_when
           (Builder (Some (connector "r1" (Some silent_device) []))
                    (Context None None None None))
           (connector "r1" (Some silent_device) []) silent_device "windows");
    [reflexivity|reflexivity|].
  left. split; [discriminate|]. split; discriminate.
Defined.

End GatherFacts.
